(** * Token-transfer extraction from receipt logs

    A shallow embedding of
    [ethereumetl/service/token_transfer_extractor.py]: the word splitter,
    the address-word normalizer, the event dispatcher and the three
    decoders (Transfer, TransferSingle, TransferBatch), followed by the
    properties of the extractor.

    Python strings are modelled as [string] (sequences of 8-bit
    characters), Python integers that come out of [hex_to_dec] as [N],
    [None] as [option], list indexing as a lookup that can raise
    [IndexError], and [logger.warning] as an append to the list of emitted
    records. *)

From Stdlib Require Import String Ascii List NArith Arith Bool Lia DecimalString.
Import ListNotations.
Local Open Scope string_scope.

(** ** Python built-ins used by the extractor *)

Module Py.

(** [s[n:]] for a non-negative [n]. *)
Fixpoint drop (n : nat) (s : string) : string :=
  match n, s with
  | O, _ => s
  | S _, EmptyString => EmptyString
  | S n', String _ s' => drop n' s'
  end.

(** [s[:n]] for a non-negative [n]. *)
Fixpoint take (n : nat) (s : string) : string :=
  match n, s with
  | O, _ => EmptyString
  | S _, EmptyString => EmptyString
  | S n', String c s' => String c (take n' s')
  end.

(** [s[i:j]] for [0 <= i <= j]. *)
Definition slice (s : string) (i j : nat) : string :=
  take (j - i) (drop i s).

(** [s[-n:]] for a positive [n]: the last [n] characters, the whole
    string when it is shorter. *)
Definition last (n : nat) (s : string) : string :=
  drop (String.length s - n) s.

Definition is_upper (c : ascii) : bool :=
  Nat.leb 65 (nat_of_ascii c) && Nat.leb (nat_of_ascii c) 90.

Definition lower_char (c : ascii) : ascii :=
  if is_upper c then ascii_of_nat (nat_of_ascii c + 32) else c.

Fixpoint map_chars (f : ascii -> ascii) (s : string) : string :=
  match s with
  | EmptyString => EmptyString
  | String c s' => String (f c) (map_chars f s')
  end.

(** [s.casefold()]; on the characters of the model it lowers [A]-[Z]. *)
Definition casefold (s : string) : string := map_chars lower_char s.

(** [s.lower()]. *)
Definition lower (s : string) : string := map_chars lower_char s.

(** [str(n)] for a non-negative integer. *)
Definition str (n : N) : string := NilEmpty.string_of_uint (N.to_uint n).

(** [range(start, stop, step)] for a positive [step]:
    [start, start + step, ...] below [stop]. *)
Definition range_step (start stop step : nat) : list nat :=
  map (fun k => start + k * step)
      (seq 0 ((stop - start + (step - 1)) / step)).

(** [range(0, n)] over unbounded integers. *)
Definition range (n : N) : list N := map N.of_nat (seq 0 (N.to_nat n)).

(** [l[i]] for a non-negative [i]; [None] stands for [IndexError]. *)
Fixpoint index {A : Type} (l : list A) (i : N) : option A :=
  match l with
  | [] => None
  | x :: r => if N.eqb i 0 then Some x else index r (N.pred i)
  end.

(** Exceptions the extractor's own code can raise. *)
Inductive exn : Type := IndexError.

Inductive outcome (A : Type) : Type :=
| Return (a : A)
| Raise (e : exn).
Arguments Return {A} a.
Arguments Raise {A} e.

(** A computation that may raise and appends to the warnings emitted so
    far; the warnings survive a raise, as the logger's records do. *)
Definition M (A : Type) : Type := list string -> outcome A * list string.

Definition ret {A} (a : A) : M A := fun w => (Return a, w).

Definition bind {A B} (c : M A) (k : A -> M B) : M B :=
  fun w =>
    match c w with
    | (Return a, w') => k a w'
    | (Raise e, w') => (Raise e, w')
    end.

Definition raise {A} (e : exn) : M A := fun w => (Raise e, w).

(** [logger.warning(msg)]. *)
Definition warning (msg : string) : M unit := fun w => (Return tt, (w ++ [msg])%list).

(** [l[i]] as a computation. *)
Definition getitem {A} (l : list A) (i : N) : M A :=
  match index l i with
  | Some x => ret x
  | None => raise IndexError
  end.

(** [for x in l: s = body x s]. *)
Fixpoint for_each {A S} (l : list A) (body : A -> S -> M S) (s : S) : M S :=
  match l with
  | [] => ret s
  | x :: r => bind (body x s) (for_each r body)
  end.

(** A call from a fresh logger: the outcome and the warnings emitted. *)
Definition run {A} (c : M A) : outcome A * list string := c [].

End Py.

Import Py.

Declare Scope py_scope.
Delimit Scope py_scope with py.
Notation "x <- c ;; k" := (bind c (fun x => k))
  (at level 61, c at next level, right associativity) : py_scope.
Notation "c ;; k" := (bind c (fun _ => k))
  (at level 61, right associativity) : py_scope.
Local Open Scope py_scope.

(** ** Collaborators from [ethereumetl.utils] *)

Module utils.

(** Modelled from the spec: [chunk_string] of [ethereumetl.utils], which
    "splits a string into fixed-width substrings, last chunk possibly
    short": the slices [s[i:i+width]] for [i = 0, width, 2*width, ...]
    below [len(s)]. *)
Definition chunk_string (s : string) (width : nat) : list string :=
  map (fun i => slice s i (i + width)) (range_step 0 (String.length s) width).

Definition hex_digit (c : ascii) : option N :=
  let n := nat_of_ascii c in
  if Nat.leb 48 n && Nat.leb n 57 then Some (N.of_nat (n - 48))
  else if Nat.leb 97 n && Nat.leb n 102 then Some (N.of_nat (n - 87))
  else if Nat.leb 65 n && Nat.leb n 70 then Some (N.of_nat (n - 55))
  else None.

Fixpoint hex_digits (s : string) (acc : N) : option N :=
  match s with
  | EmptyString => Some acc
  | String c s' =>
      match hex_digit c with
      | Some d => hex_digits s' (16 * acc + d)
      | None => None
      end
  end.

(** Modelled from the spec: [hex_to_dec] of [ethereumetl.utils], which
    "decodes a 0x-prefixed hex word into an unsigned integer" of
    arbitrary precision.  The spec gives no result for a string that is
    not such a word; this model yields [0] there. *)
Definition hex_to_dec (s : string) : N :=
  match s with
  | String "0" (String "x" (String c r)) =>
      match hex_digits (String c r) 0 with
      | Some n => n
      | None => 0
      end
  | _ => 0
  end.

(** Modelled from the spec: [to_normalized_address] of
    [ethereumetl.utils], whose "normalization = lowercase hex with
    canonical 0x prefix", case-insensitive and idempotent; the words it
    receives from the extractor already carry their prefix. *)
Definition to_normalized_address (address : string) : string := lower address.

End utils.

(** ** Data model *)

(** The receipt log handed to the extractor.  [topics] and [data] may be
    [None]; the three identifiers are copied into every record. *)
Module ReceiptLog.
Record t : Type := mk {
  log_index : N;
  transaction_hash : string;
  block_number : N;
  address : string;
  data : option string;
  topics : option (list string)
}.
End ReceiptLog.

(** [EthTokenTransfer]: every attribute of the Python object may be
    [None]. *)
Module EthTokenTransfer.
Record t : Type := mk {
  token_address : option string;
  from_address : option string;
  to_address : option string;
  value : option N;
  token_id : option N;
  transaction_hash : option string;
  log_index : option N;
  block_number : option N
}.
End EthTokenTransfer.

(** Transfer(address,address,uint256), ERC20/ERC721. *)
Definition TRANSFER_EVENT_TOPIC : string :=
  "0xddf252ad1be2c89b69c2b068fc378daa952ba7f163c4a11628f55a4df523b3ef".

(** TransferSingle(address,address,address,uint256,uint256), ERC1155. *)
Definition TRANSFER_ERC1155_EVENT_TOPIC : string :=
  "0xc3d58168c5ae7397731d063d5bbf3d657854427343f4c083240f7aacaa2d0f62".

(** TransferBatch(address,address,address,uint256[],uint256[]), ERC1155. *)
Definition TRANSFER_BATCH_ERC1155_EVENT_TOPIC : string :=
  "0x4a39dc06d4c0dbc64b70af90fd698a233a518aa5d07e595d983b8c0526c8f7fb".

(** ** Word splitter *)

Definition split_to_words (data : option string) : list string :=
  match data with
  | Some d =>
      if negb (String.length d =? 0)%nat && (2 <? String.length d)%nat then
        let data_without_0x := drop 2 d in
        let words := utils.chunk_string data_without_0x 64 in
        map (fun word => "0x" ++ word) words
      else []
  | None => []
  end.

(** ** The warnings of the three decoders *)

Definition warn_transfer (receipt_log : ReceiptLog.t) : string :=
  "The number of topics and data parts is not equal to 4 in log "
  ++ str (ReceiptLog.log_index receipt_log)
  ++ " of transaction " ++ ReceiptLog.transaction_hash receipt_log.

Definition warn_erc1155 (receipt_log : ReceiptLog.t) : string :=
  "The number of topics and data parts is not equal to 6 in log "
  ++ str (ReceiptLog.log_index receipt_log)
  ++ " of transaction " ++ ReceiptLog.transaction_hash receipt_log.

Definition warn_batch_counts (receipt_log : ReceiptLog.t) : string :=
  "The number of ids and values is not equal in log "
  ++ str (ReceiptLog.log_index receipt_log)
  ++ " of transaction " ++ ReceiptLog.transaction_hash receipt_log.

(** ** The extractor, over its two collaborators *)

Section Extractor.

(** [to_normalized_address] and [hex_to_dec] of [ethereumetl.utils], by
    their contracts: a string to a string, a hex word to an unsigned
    integer. *)
Variable to_normalized_address : string -> string.
Variable hex_to_dec : string -> N.

Definition word_to_address (param : option string) : option string :=
  match param with
  | None => None
  | Some p =>
      if (40 <=? String.length p)%nat
      then Some (to_normalized_address ("0x" ++ last 40 p))
      else Some (to_normalized_address p)
  end.

Definition _handle_transfer (receipt_log : ReceiptLog.t) (topics : list string)
  : M (option (list EthTokenTransfer.t)) :=
  let topics_with_data := (topics ++ split_to_words (ReceiptLog.data receipt_log))%list in
  if negb (length topics_with_data =? 4)%nat then
    warning (warn_transfer receipt_log) ;;
    ret None
  else
    w1 <- getitem topics_with_data 1 ;;
    w2 <- getitem topics_with_data 2 ;;
    w3 <- getitem topics_with_data 3 ;;
    ret (Some [ {|
      EthTokenTransfer.token_address :=
        Some (to_normalized_address (ReceiptLog.address receipt_log));
      EthTokenTransfer.from_address := word_to_address (Some w1);
      EthTokenTransfer.to_address := word_to_address (Some w2);
      EthTokenTransfer.value := Some (hex_to_dec w3);
      EthTokenTransfer.token_id := None;
      EthTokenTransfer.transaction_hash := Some (ReceiptLog.transaction_hash receipt_log);
      EthTokenTransfer.log_index := Some (ReceiptLog.log_index receipt_log);
      EthTokenTransfer.block_number := Some (ReceiptLog.block_number receipt_log)
    |} ]).

Definition _handle_erc1155_transfer (receipt_log : ReceiptLog.t) (topics : list string)
  : M (option (list EthTokenTransfer.t)) :=
  let topics_with_data := (topics ++ split_to_words (ReceiptLog.data receipt_log))%list in
  if negb (length topics_with_data =? 6)%nat || negb (length topics =? 4)%nat then
    warning (warn_erc1155 receipt_log) ;;
    ret None
  else
    w2 <- getitem topics_with_data 2 ;;
    w3 <- getitem topics_with_data 3 ;;
    w4 <- getitem topics_with_data 4 ;;
    w5 <- getitem topics_with_data 5 ;;
    ret (Some [ {|
      EthTokenTransfer.token_address :=
        Some (to_normalized_address (ReceiptLog.address receipt_log));
      EthTokenTransfer.from_address := word_to_address (Some w2);
      EthTokenTransfer.to_address := word_to_address (Some w3);
      EthTokenTransfer.value := Some (hex_to_dec w5);
      EthTokenTransfer.token_id := Some (hex_to_dec w4);
      EthTokenTransfer.transaction_hash := Some (ReceiptLog.transaction_hash receipt_log);
      EthTokenTransfer.log_index := Some (ReceiptLog.log_index receipt_log);
      EthTokenTransfer.block_number := Some (ReceiptLog.block_number receipt_log)
    |} ]).

(** The body of the loop of the batch decoder at index [i]: two reads
    for the pair, two for the addresses, and the append. *)
Definition batch_body (receipt_log : ReceiptLog.t) (topics_with_data : list string)
    (ids_count : N) (i : N) (token_transfers : list EthTokenTransfer.t)
  : M (list EthTokenTransfer.t) :=
  wid <- getitem topics_with_data (6 + 1 + i) ;;
  let token_id := hex_to_dec wid in
  wval <- getitem topics_with_data (6 + ids_count + 1 + i + 1) ;;
  let value := hex_to_dec wval in
  w2 <- getitem topics_with_data 2 ;;
  w3 <- getitem topics_with_data 3 ;;
  ret (token_transfers ++ [ {|
    EthTokenTransfer.token_address :=
      Some (to_normalized_address (ReceiptLog.address receipt_log));
    EthTokenTransfer.from_address := word_to_address (Some w2);
    EthTokenTransfer.to_address := word_to_address (Some w3);
    EthTokenTransfer.value := Some value;
    EthTokenTransfer.token_id := Some token_id;
    EthTokenTransfer.transaction_hash := Some (ReceiptLog.transaction_hash receipt_log);
    EthTokenTransfer.log_index := Some (ReceiptLog.log_index receipt_log);
    EthTokenTransfer.block_number := Some (ReceiptLog.block_number receipt_log)
  |} ])%list.

Definition _handle_erc1155_batch_transfer (receipt_log : ReceiptLog.t)
    (topics : list string) : M (option (list EthTokenTransfer.t)) :=
  let topics_with_data := (topics ++ split_to_words (ReceiptLog.data receipt_log))%list in
  if negb (length topics =? 4)%nat then
    warning (warn_erc1155 receipt_log) ;;
    ret None
  else
    w6 <- getitem topics_with_data 6 ;;
    let ids_count := hex_to_dec w6 in
    wn <- getitem topics_with_data (6 + ids_count + 1) ;;
    let values_count := hex_to_dec wn in
    if negb (ids_count =? values_count)%N then
      warning (warn_batch_counts receipt_log) ;;
      ret None
    else
      token_transfers <-
        for_each (range ids_count)
                 (batch_body receipt_log topics_with_data ids_count) [] ;;
      ret (Some token_transfers).

Definition extract_transfer_from_log (receipt_log : ReceiptLog.t)
  : M (option (list EthTokenTransfer.t)) :=
  match ReceiptLog.topics receipt_log with
  | None => ret None
  | Some topics =>
      if (length topics <? 1)%nat then ret None
      else
        t0 <- getitem topics 0 ;;
        if casefold t0 =? TRANSFER_EVENT_TOPIC then
          _handle_transfer receipt_log topics
        else if casefold t0 =? TRANSFER_ERC1155_EVENT_TOPIC then
          _handle_erc1155_transfer receipt_log topics
        else if casefold t0 =? TRANSFER_BATCH_ERC1155_EVENT_TOPIC then
          _handle_erc1155_batch_transfer receipt_log topics
        else ret None
  end.

(** ** Reference definitions for the statements *)

(** The record every decoder builds: the addresses cut from two words,
    the value, the id when there is one, and the identifiers of the
    log. *)
Definition transfer_of (receipt_log : ReceiptLog.t) (w_from w_to : string)
    (value : N) (token_id : option N) : EthTokenTransfer.t :=
  {| EthTokenTransfer.token_address :=
       Some (to_normalized_address (ReceiptLog.address receipt_log));
     EthTokenTransfer.from_address := word_to_address (Some w_from);
     EthTokenTransfer.to_address := word_to_address (Some w_to);
     EthTokenTransfer.value := Some value;
     EthTokenTransfer.token_id := token_id;
     EthTokenTransfer.transaction_hash := Some (ReceiptLog.transaction_hash receipt_log);
     EthTokenTransfer.log_index := Some (ReceiptLog.log_index receipt_log);
     EthTokenTransfer.block_number := Some (ReceiptLog.block_number receipt_log) |}.

(** The tape the decoders index: the topics, then the words of the
    data. *)
Definition tape_of (receipt_log : ReceiptLog.t) (topics : list string) : list string :=
  (topics ++ split_to_words (ReceiptLog.data receipt_log))%list.

(** A warning names a log when it ends with the log's index and
    transaction hash. *)
Definition identifies (receipt_log : ReceiptLog.t) (msg : string) : Prop :=
  exists head,
    msg = head ++ " in log " ++ str (ReceiptLog.log_index receipt_log)
               ++ " of transaction " ++ ReceiptLog.transaction_hash receipt_log.

(** An address is normalized when the normalizer produced it. *)
Definition normalized (a : option string) : Prop :=
  exists s, a = Some (to_normalized_address s).

End Extractor.

(** ** The splitter as the specification words it *)

(** [s.startswith("0x")]. *)
Definition starts_with_0x (s : string) : bool := prefix "0x" s.

(** "Strip a leading 0x prefix if present". *)
Definition strip_0x (s : string) : string :=
  if starts_with_0x s then drop 2 s else s.

(** The word splitter in the words of the specification: strip the prefix
    if it is there; nothing left gives no word; otherwise cut what is
    left into chunks of 64 characters and prefix each one. *)
Definition split_to_words_spec (s : string) : list string :=
  let rest := strip_0x s in
  if (String.length rest =? 0)%nat then []
  else map (fun word => "0x" ++ word) (utils.chunk_string rest 64).

(** The characters a list of words carries: each word without its two
    leading characters, joined. *)
Fixpoint join (words : list string) : string :=
  match words with
  | [] => EmptyString
  | w :: r => w ++ join r
  end.

Definition payload (words : list string) : string := join (map (drop 2) words).

(** ** Sample logs *)

Definition operator_word : string :=
  "0x0000000000000000000000001111111111111111111111111111111111111111".
Definition from_word : string :=
  "0x000000000000000000000000ABCDEF0123456789abcdef0123456789ABCDEF01".
Definition to_word : string :=
  "0x0000000000000000000000002222222222222222222222222222222222222222".

(** A TransferBatch of two pairs: ids 8 and 7, values 1 and 3. *)
Definition batch_log : ReceiptLog.t :=
  {| ReceiptLog.log_index := 5;
     ReceiptLog.transaction_hash :=
       "0x9ecd9463c4359a8347da8f0956f897f0b1aca58e12d6a9d9b47d4d07d724a9b2";
     ReceiptLog.block_number := 12345678;
     ReceiptLog.address := "0xD07dc4262BCDbf85190C01c996b4C06a461d2430";
     ReceiptLog.data := (Some
      "0x000000000000000000000000000000000000000000000000000000000000004000000000000000000000000000000000000000000000000000000000000000a0000000000000000000000000000000000000000000000000000000000000000200000000000000000000000000000000000000000000000000000000000000080000000000000000000000000000000000000000000000000000000000000007000000000000000000000000000000000000000000000000000000000000000200000000000000000000000000000000000000000000000000000000000000010000000000000000000000000000000000000000000000000000000000000003");
     ReceiptLog.topics := Some
      ["0x4a39dc06d4c0dbc64b70af90fd698a233a518aa5d07e595d983b8c0526c8f7fb";
       "0x0000000000000000000000001111111111111111111111111111111111111111";
       "0x000000000000000000000000ABCDEF0123456789abcdef0123456789ABCDEF01";
       "0x0000000000000000000000002222222222222222222222222222222222222222"] |}.

(** A TransferBatch whose two arrays are empty. *)
Definition batch_of_zero_log : ReceiptLog.t :=
  {| ReceiptLog.log_index := 6;
     ReceiptLog.transaction_hash :=
       "0x9ecd9463c4359a8347da8f0956f897f0b1aca58e12d6a9d9b47d4d07d724a9b2";
     ReceiptLog.block_number := 12345678;
     ReceiptLog.address := "0xD07dc4262BCDbf85190C01c996b4C06a461d2430";
     ReceiptLog.data := (Some
      "0x0000000000000000000000000000000000000000000000000000000000000040000000000000000000000000000000000000000000000000000000000000006000000000000000000000000000000000000000000000000000000000000000000000000000000000000000000000000000000000000000000000000000000000");
     ReceiptLog.topics := Some
      ["0x4a39dc06d4c0dbc64b70af90fd698a233a518aa5d07e595d983b8c0526c8f7fb";
       "0x0000000000000000000000001111111111111111111111111111111111111111";
       "0x000000000000000000000000ABCDEF0123456789abcdef0123456789ABCDEF01";
       "0x0000000000000000000000002222222222222222222222222222222222222222"] |}.

(** A TransferBatch announcing two ids and one value. *)
Definition batch_mismatch_log : ReceiptLog.t :=
  {| ReceiptLog.log_index := 7;
     ReceiptLog.transaction_hash :=
       "0x9ecd9463c4359a8347da8f0956f897f0b1aca58e12d6a9d9b47d4d07d724a9b2";
     ReceiptLog.block_number := 12345678;
     ReceiptLog.address := "0xD07dc4262BCDbf85190C01c996b4C06a461d2430";
     ReceiptLog.data := (Some
      "0x000000000000000000000000000000000000000000000000000000000000004000000000000000000000000000000000000000000000000000000000000000a000000000000000000000000000000000000000000000000000000000000000020000000000000000000000000000000000000000000000000000000000000008000000000000000000000000000000000000000000000000000000000000000700000000000000000000000000000000000000000000000000000000000000010000000000000000000000000000000000000000000000000000000000000001");
     ReceiptLog.topics := Some
      ["0x4a39dc06d4c0dbc64b70af90fd698a233a518aa5d07e595d983b8c0526c8f7fb";
       "0x0000000000000000000000001111111111111111111111111111111111111111";
       "0x000000000000000000000000ABCDEF0123456789abcdef0123456789ABCDEF01";
       "0x0000000000000000000000002222222222222222222222222222222222222222"] |}.

(** A log with the TransferBatch signature, four topics and empty data. *)
Definition batch_no_data_log : ReceiptLog.t :=
  {| ReceiptLog.log_index := 8;
     ReceiptLog.transaction_hash :=
       "0x9ecd9463c4359a8347da8f0956f897f0b1aca58e12d6a9d9b47d4d07d724a9b2";
     ReceiptLog.block_number := 12345678;
     ReceiptLog.address := "0xD07dc4262BCDbf85190C01c996b4C06a461d2430";
     ReceiptLog.data := (Some
      "0x");
     ReceiptLog.topics := Some
      ["0x4a39dc06d4c0dbc64b70af90fd698a233a518aa5d07e595d983b8c0526c8f7fb";
       "0x0000000000000000000000001111111111111111111111111111111111111111";
       "0x000000000000000000000000ABCDEF0123456789abcdef0123456789ABCDEF01";
       "0x0000000000000000000000002222222222222222222222222222222222222222"] |}.

(** An ERC20 Transfer of 2^200 + 17, its signature in upper-case hex digits. *)
Definition transfer_log : ReceiptLog.t :=
  {| ReceiptLog.log_index := 1;
     ReceiptLog.transaction_hash :=
       "0x9ecd9463c4359a8347da8f0956f897f0b1aca58e12d6a9d9b47d4d07d724a9b2";
     ReceiptLog.block_number := 12345678;
     ReceiptLog.address := "0xD07dc4262BCDbf85190C01c996b4C06a461d2430";
     ReceiptLog.data := (Some
      "0x0000000000000100000000000000000000000000000000000000000000000011");
     ReceiptLog.topics := Some
      ["0xDDF252AD1BE2C89B69C2B068FC378DAA952BA7F163C4A11628F55A4DF523B3EF";
       "0x000000000000000000000000ABCDEF0123456789abcdef0123456789ABCDEF01";
       "0x0000000000000000000000002222222222222222222222222222222222222222"] |}.

(** A Transfer with one word too few. *)
Definition transfer_short_log : ReceiptLog.t :=
  {| ReceiptLog.log_index := 2;
     ReceiptLog.transaction_hash :=
       "0x9ecd9463c4359a8347da8f0956f897f0b1aca58e12d6a9d9b47d4d07d724a9b2";
     ReceiptLog.block_number := 12345678;
     ReceiptLog.address := "0xD07dc4262BCDbf85190C01c996b4C06a461d2430";
     ReceiptLog.data := (Some
      "0x0000000000000100000000000000000000000000000000000000000000000011");
     ReceiptLog.topics := Some
      ["0xddf252ad1be2c89b69c2b068fc378daa952ba7f163c4a11628f55a4df523b3ef";
       "0x000000000000000000000000ABCDEF0123456789abcdef0123456789ABCDEF01"] |}.

(** A TransferSingle of id 9 and value 4. *)
Definition single_log : ReceiptLog.t :=
  {| ReceiptLog.log_index := 3;
     ReceiptLog.transaction_hash :=
       "0x9ecd9463c4359a8347da8f0956f897f0b1aca58e12d6a9d9b47d4d07d724a9b2";
     ReceiptLog.block_number := 12345678;
     ReceiptLog.address := "0xD07dc4262BCDbf85190C01c996b4C06a461d2430";
     ReceiptLog.data := (Some
      "0x00000000000000000000000000000000000000000000000000000000000000090000000000000000000000000000000000000000000000000000000000000004");
     ReceiptLog.topics := Some
      ["0xc3d58168c5ae7397731d063d5bbf3d657854427343f4c083240f7aacaa2d0f62";
       "0x0000000000000000000000001111111111111111111111111111111111111111";
       "0x000000000000000000000000ABCDEF0123456789abcdef0123456789ABCDEF01";
       "0x0000000000000000000000002222222222222222222222222222222222222222"] |}.

(** Six words with the TransferSingle signature, only three of them topics. *)
Definition single_three_topics_log : ReceiptLog.t :=
  {| ReceiptLog.log_index := 4;
     ReceiptLog.transaction_hash :=
       "0x9ecd9463c4359a8347da8f0956f897f0b1aca58e12d6a9d9b47d4d07d724a9b2";
     ReceiptLog.block_number := 12345678;
     ReceiptLog.address := "0xD07dc4262BCDbf85190C01c996b4C06a461d2430";
     ReceiptLog.data := (Some
      "0x000000000000000000000000222222222222222222222222222222222222222200000000000000000000000000000000000000000000000000000000000000090000000000000000000000000000000000000000000000000000000000000004");
     ReceiptLog.topics := Some
      ["0xc3d58168c5ae7397731d063d5bbf3d657854427343f4c083240f7aacaa2d0f62";
       "0x0000000000000000000000001111111111111111111111111111111111111111";
       "0x000000000000000000000000ABCDEF0123456789abcdef0123456789ABCDEF01"] |}.

(** An anonymous event: no topics at all. *)
Definition anonymous_log : ReceiptLog.t :=
  {| ReceiptLog.log_index := 9;
     ReceiptLog.transaction_hash :=
       "0x9ecd9463c4359a8347da8f0956f897f0b1aca58e12d6a9d9b47d4d07d724a9b2";
     ReceiptLog.block_number := 12345678;
     ReceiptLog.address := "0xD07dc4262BCDbf85190C01c996b4C06a461d2430";
     ReceiptLog.data := (Some
      "0x0000000000000000000000000000000000000000000000000000000000000001");
     ReceiptLog.topics := None |}.

(** An event with an empty list of topics. *)
Definition empty_topics_log : ReceiptLog.t :=
  {| ReceiptLog.log_index := 10;
     ReceiptLog.transaction_hash :=
       "0x9ecd9463c4359a8347da8f0956f897f0b1aca58e12d6a9d9b47d4d07d724a9b2";
     ReceiptLog.block_number := 12345678;
     ReceiptLog.address := "0xD07dc4262BCDbf85190C01c996b4C06a461d2430";
     ReceiptLog.data := (Some
      "0x0000000000000000000000000000000000000000000000000000000000000001");
     ReceiptLog.topics := Some [] |}.

(** An Approval event, which the extractor does not decode. *)
Definition unknown_log : ReceiptLog.t :=
  {| ReceiptLog.log_index := 11;
     ReceiptLog.transaction_hash :=
       "0x9ecd9463c4359a8347da8f0956f897f0b1aca58e12d6a9d9b47d4d07d724a9b2";
     ReceiptLog.block_number := 12345678;
     ReceiptLog.address := "0xD07dc4262BCDbf85190C01c996b4C06a461d2430";
     ReceiptLog.data := (Some
      "0x0000000000000000000000000000000000000000000000000000000000000001");
     ReceiptLog.topics := Some
      ["0x8c5be1e5ebec7d5bd14f71427d1e84f3dd0314c0f7b2291e5b200ac8c7c3b925";
       "0x000000000000000000000000ABCDEF0123456789abcdef0123456789ABCDEF01";
       "0x0000000000000000000000002222222222222222222222222222222222222222"] |}.

(** The extractor over the modelled collaborators, for the sample logs. *)
Definition extract_model (receipt_log : ReceiptLog.t)
  : M (option (list EthTokenTransfer.t)) :=
  extract_transfer_from_log utils.to_normalized_address utils.hex_to_dec receipt_log.

Definition transfer_model :=
  transfer_of utils.to_normalized_address.

(** The two records of [batch_log]. *)
Definition batch_records : list EthTokenTransfer.t :=
  [ transfer_model batch_log from_word to_word 1 (Some 8%N);
    transfer_model batch_log from_word to_word 3 (Some 7%N) ].

(** A prefixed word of 38 hex digits: 40 characters in all. *)
Definition short_prefixed_word : string :=
  "0x11111111111111111111111111111111111111".

(** ** The outcomes of the extractor, case by case *)

(** [receipt_log] with other topics. *)
Definition with_topics (receipt_log : ReceiptLog.t) (topics : option (list string))
  : ReceiptLog.t :=
  {| ReceiptLog.log_index := ReceiptLog.log_index receipt_log;
     ReceiptLog.transaction_hash := ReceiptLog.transaction_hash receipt_log;
     ReceiptLog.block_number := ReceiptLog.block_number receipt_log;
     ReceiptLog.address := ReceiptLog.address receipt_log;
     ReceiptLog.data := ReceiptLog.data receipt_log;
     ReceiptLog.topics := topics |}.

Section Outcomes.

Variable to_normalized_address : string -> string.
Variable hex_to_dec : string -> N.

(** The paths through [extract_transfer_from_log] and its three decoders,
    each with the outcome and the warnings it ends in. *)
Inductive extraction (receipt_log : ReceiptLog.t)
  : outcome (option (list EthTokenTransfer.t)) -> list string -> Prop :=
| no_topics :
    ReceiptLog.topics receipt_log = None \/
    ReceiptLog.topics receipt_log = Some [] ->
    extraction receipt_log (Return None) []
| unknown_signature t0 rest :
    ReceiptLog.topics receipt_log = Some (t0 :: rest) ->
    casefold t0 <> TRANSFER_EVENT_TOPIC ->
    casefold t0 <> TRANSFER_ERC1155_EVENT_TOPIC ->
    casefold t0 <> TRANSFER_BATCH_ERC1155_EVENT_TOPIC ->
    extraction receipt_log (Return None) []
| transfer_rejected t0 rest :
    ReceiptLog.topics receipt_log = Some (t0 :: rest) ->
    casefold t0 = TRANSFER_EVENT_TOPIC ->
    length (tape_of receipt_log (t0 :: rest)) <> 4%nat ->
    extraction receipt_log (Return None) [warn_transfer receipt_log]
| transfer_decoded t0 rest w1 w2 w3 :
    ReceiptLog.topics receipt_log = Some (t0 :: rest) ->
    casefold t0 = TRANSFER_EVENT_TOPIC ->
    tape_of receipt_log (t0 :: rest) = [t0; w1; w2; w3] ->
    extraction receipt_log
      (Return (Some [transfer_of to_normalized_address receipt_log w1 w2
                       (hex_to_dec w3) None])) []
| single_rejected t0 rest :
    ReceiptLog.topics receipt_log = Some (t0 :: rest) ->
    casefold t0 = TRANSFER_ERC1155_EVENT_TOPIC ->
    ~ (length (tape_of receipt_log (t0 :: rest)) = 6%nat /\
       length (t0 :: rest) = 4%nat) ->
    extraction receipt_log (Return None) [warn_erc1155 receipt_log]
| single_decoded t0 w1 w2 w3 w4 w5 :
    ReceiptLog.topics receipt_log = Some [t0; w1; w2; w3] ->
    casefold t0 = TRANSFER_ERC1155_EVENT_TOPIC ->
    tape_of receipt_log [t0; w1; w2; w3] = [t0; w1; w2; w3; w4; w5] ->
    extraction receipt_log
      (Return (Some [transfer_of to_normalized_address receipt_log w2 w3
                       (hex_to_dec w5) (Some (hex_to_dec w4))])) []
| batch_rejected_topics t0 rest :
    ReceiptLog.topics receipt_log = Some (t0 :: rest) ->
    casefold t0 = TRANSFER_BATCH_ERC1155_EVENT_TOPIC ->
    length (t0 :: rest) <> 4%nat ->
    extraction receipt_log (Return None) [warn_erc1155 receipt_log]
| batch_no_ids_length t0 t1 t2 t3 :
    ReceiptLog.topics receipt_log = Some [t0; t1; t2; t3] ->
    casefold t0 = TRANSFER_BATCH_ERC1155_EVENT_TOPIC ->
    index (tape_of receipt_log [t0; t1; t2; t3]) 6 = None ->
    extraction receipt_log (Raise IndexError) []
| batch_no_values_length t0 t1 t2 t3 w6 :
    ReceiptLog.topics receipt_log = Some [t0; t1; t2; t3] ->
    casefold t0 = TRANSFER_BATCH_ERC1155_EVENT_TOPIC ->
    index (tape_of receipt_log [t0; t1; t2; t3]) 6 = Some w6 ->
    index (tape_of receipt_log [t0; t1; t2; t3]) (6 + hex_to_dec w6 + 1) = None ->
    extraction receipt_log (Raise IndexError) []
| batch_rejected_lengths t0 t1 t2 t3 w6 wn :
    ReceiptLog.topics receipt_log = Some [t0; t1; t2; t3] ->
    casefold t0 = TRANSFER_BATCH_ERC1155_EVENT_TOPIC ->
    index (tape_of receipt_log [t0; t1; t2; t3]) 6 = Some w6 ->
    index (tape_of receipt_log [t0; t1; t2; t3]) (6 + hex_to_dec w6 + 1) = Some wn ->
    hex_to_dec w6 <> hex_to_dec wn ->
    extraction receipt_log (Return None) [warn_batch_counts receipt_log]
| batch_truncated t0 t1 t2 t3 w6 wn :
    ReceiptLog.topics receipt_log = Some [t0; t1; t2; t3] ->
    casefold t0 = TRANSFER_BATCH_ERC1155_EVENT_TOPIC ->
    index (tape_of receipt_log [t0; t1; t2; t3]) 6 = Some w6 ->
    index (tape_of receipt_log [t0; t1; t2; t3]) (6 + hex_to_dec w6 + 1) = Some wn ->
    hex_to_dec w6 = hex_to_dec wn ->
    (0 < hex_to_dec w6)%N ->
    (N.of_nat (length (tape_of receipt_log [t0; t1; t2; t3]))
     < 2 * hex_to_dec w6 + 8)%N ->
    extraction receipt_log (Raise IndexError) []
| batch_decoded t0 t1 t2 t3 w6 wn records :
    ReceiptLog.topics receipt_log = Some [t0; t1; t2; t3] ->
    casefold t0 = TRANSFER_BATCH_ERC1155_EVENT_TOPIC ->
    index (tape_of receipt_log [t0; t1; t2; t3]) 6 = Some w6 ->
    index (tape_of receipt_log [t0; t1; t2; t3]) (6 + hex_to_dec w6 + 1) = Some wn ->
    hex_to_dec w6 = hex_to_dec wn ->
    (hex_to_dec w6 = 0%N \/
     (2 * hex_to_dec w6 + 8
      <= N.of_nat (length (tape_of receipt_log [t0; t1; t2; t3])))%N) ->
    length records = N.to_nat (hex_to_dec w6) ->
    (forall i, (i < hex_to_dec w6)%N ->
       exists wid wval,
         index (tape_of receipt_log [t0; t1; t2; t3]) (6 + 1 + i) = Some wid /\
         index (tape_of receipt_log [t0; t1; t2; t3])
               (6 + hex_to_dec w6 + 1 + i + 1) = Some wval /\
         nth_error records (N.to_nat i) =
           Some (transfer_of to_normalized_address receipt_log t2 t3
                   (hex_to_dec wval) (Some (hex_to_dec wid)))) ->
    extraction receipt_log (Return (Some records)) [].

End Outcomes.

(** ** More sample logs *)

(** A TransferBatch announcing two ids and two values whose last value is cut off. *)
Definition batch_truncated_log : ReceiptLog.t :=
  {| ReceiptLog.log_index := 12;
     ReceiptLog.transaction_hash :=
       "0x9ecd9463c4359a8347da8f0956f897f0b1aca58e12d6a9d9b47d4d07d724a9b2";
     ReceiptLog.block_number := 12345678;
     ReceiptLog.address := "0xD07dc4262BCDbf85190C01c996b4C06a461d2430";
     ReceiptLog.data := (Some
      "0x000000000000000000000000000000000000000000000000000000000000004000000000000000000000000000000000000000000000000000000000000000a000000000000000000000000000000000000000000000000000000000000000020000000000000000000000000000000000000000000000000000000000000008000000000000000000000000000000000000000000000000000000000000000700000000000000000000000000000000000000000000000000000000000000020000000000000000000000000000000000000000000000000000000000000001");
     ReceiptLog.topics := Some
      ["0x4a39dc06d4c0dbc64b70af90fd698a233a518aa5d07e595d983b8c0526c8f7fb";
       "0x0000000000000000000000001111111111111111111111111111111111111111";
       "0x000000000000000000000000ABCDEF0123456789abcdef0123456789ABCDEF01";
       "0x0000000000000000000000002222222222222222222222222222222222222222"] |}.

(** A TransferBatch whose ids length is 2^255. *)
Definition batch_huge_length_log : ReceiptLog.t :=
  {| ReceiptLog.log_index := 13;
     ReceiptLog.transaction_hash :=
       "0x9ecd9463c4359a8347da8f0956f897f0b1aca58e12d6a9d9b47d4d07d724a9b2";
     ReceiptLog.block_number := 12345678;
     ReceiptLog.address := "0xD07dc4262BCDbf85190C01c996b4C06a461d2430";
     ReceiptLog.data := (Some
      "0x000000000000000000000000000000000000000000000000000000000000004000000000000000000000000000000000000000000000000000000000000000a0800000000000000000000000000000000000000000000000000000000000000000000000000000000000000000000000000000000000000000000000000000080000000000000000000000000000000000000000000000000000000000000007");
     ReceiptLog.topics := Some
      ["0x4a39dc06d4c0dbc64b70af90fd698a233a518aa5d07e595d983b8c0526c8f7fb";
       "0x0000000000000000000000001111111111111111111111111111111111111111";
       "0x000000000000000000000000ABCDEF0123456789abcdef0123456789ABCDEF01";
       "0x0000000000000000000000002222222222222222222222222222222222222222"] |}.

(** A TransferBatch signature with three topics only. *)
Definition batch_three_topics_log : ReceiptLog.t :=
  {| ReceiptLog.log_index := 14;
     ReceiptLog.transaction_hash :=
       "0x9ecd9463c4359a8347da8f0956f897f0b1aca58e12d6a9d9b47d4d07d724a9b2";
     ReceiptLog.block_number := 12345678;
     ReceiptLog.address := "0xD07dc4262BCDbf85190C01c996b4C06a461d2430";
     ReceiptLog.data := (Some
      "0x000000000000000000000000000000000000000000000000000000000000004000000000000000000000000000000000000000000000000000000000000000a000000000000000000000000000000000000000000000000000000000000000000000000000000000000000000000000000000000000000000000000000000000");
     ReceiptLog.topics := Some
      ["0x4a39dc06d4c0dbc64b70af90fd698a233a518aa5d07e595d983b8c0526c8f7fb";
       "0x0000000000000000000000001111111111111111111111111111111111111111";
       "0x000000000000000000000000ABCDEF0123456789abcdef0123456789ABCDEF01"] |}.

(** An ERC721 Transfer: the token id 77 is the fourth topic and the data is empty. *)
Definition erc721_log : ReceiptLog.t :=
  {| ReceiptLog.log_index := 15;
     ReceiptLog.transaction_hash :=
       "0x9ecd9463c4359a8347da8f0956f897f0b1aca58e12d6a9d9b47d4d07d724a9b2";
     ReceiptLog.block_number := 12345678;
     ReceiptLog.address := "0xD07dc4262BCDbf85190C01c996b4C06a461d2430";
     ReceiptLog.data := (Some
      "0x");
     ReceiptLog.topics := Some
      ["0xddf252ad1be2c89b69c2b068fc378daa952ba7f163c4a11628f55a4df523b3ef";
       "0x000000000000000000000000ABCDEF0123456789abcdef0123456789ABCDEF01";
       "0x0000000000000000000000002222222222222222222222222222222222222222";
       "0x000000000000000000000000000000000000000000000000000000000000004d"] |}.

(** ** The address of a word: the specification's words and the code's cut *)

Section Addresses.

Variable to_normalized_address : string -> string.

(** The normalized word in the words of the specification: "extract the
    low-order 20 bytes (last 40 hex characters) if the word is at least
    40 characters long after its prefix; otherwise treat the whole input
    as already an address and normalize it directly". *)
Definition normalized_word_spec (w : string) : string :=
  if (40 <=? String.length (strip_0x w))%nat
  then to_normalized_address ("0x" ++ last 40 (strip_0x w))
  else to_normalized_address w.

(** The cut with its threshold on the whole word, prefix counted: 0x and
    the last 40 characters of a word of at least 40 characters, the word
    itself otherwise, normalized. *)
Definition address_cut (w : string) : string :=
  if (40 <=? String.length w)%nat
  then to_normalized_address ("0x" ++ last 40 w)
  else to_normalized_address w.

(** A record given field by field: the two addresses as they stand, the
    value, the id when there is one, and the identifiers of the log. *)
Definition transfer_record (receipt_log : ReceiptLog.t) (a_from a_to : string)
    (value : N) (token_id : option N) : EthTokenTransfer.t :=
  {| EthTokenTransfer.token_address :=
       Some (to_normalized_address (ReceiptLog.address receipt_log));
     EthTokenTransfer.from_address := Some a_from;
     EthTokenTransfer.to_address := Some a_to;
     EthTokenTransfer.value := Some value;
     EthTokenTransfer.token_id := token_id;
     EthTokenTransfer.transaction_hash :=
       Some (ReceiptLog.transaction_hash receipt_log);
     EthTokenTransfer.log_index := Some (ReceiptLog.log_index receipt_log);
     EthTokenTransfer.block_number := Some (ReceiptLog.block_number receipt_log) |}.

End Addresses.

(** ** Logs whose from topic is a prefixed word of 38 digits *)

(** A Transfer of 5 with four topics; its from topic is [short_prefixed_word]. *)
Definition transfer_short_from_log : ReceiptLog.t :=
  {| ReceiptLog.log_index := 16;
     ReceiptLog.transaction_hash :=
       "0x9ecd9463c4359a8347da8f0956f897f0b1aca58e12d6a9d9b47d4d07d724a9b2";
     ReceiptLog.block_number := 12345678;
     ReceiptLog.address := "0xD07dc4262BCDbf85190C01c996b4C06a461d2430";
     ReceiptLog.data := (Some
      "0x");
     ReceiptLog.topics := Some
      ["0xddf252ad1be2c89b69c2b068fc378daa952ba7f163c4a11628f55a4df523b3ef";
       "0x11111111111111111111111111111111111111";
       "0x0000000000000000000000002222222222222222222222222222222222222222";
       "0x0000000000000000000000000000000000000000000000000000000000000005"] |}.

(** A TransferSingle of id 9 and value 4; its from topic is [short_prefixed_word]. *)
Definition single_short_from_log : ReceiptLog.t :=
  {| ReceiptLog.log_index := 17;
     ReceiptLog.transaction_hash :=
       "0x9ecd9463c4359a8347da8f0956f897f0b1aca58e12d6a9d9b47d4d07d724a9b2";
     ReceiptLog.block_number := 12345678;
     ReceiptLog.address := "0xD07dc4262BCDbf85190C01c996b4C06a461d2430";
     ReceiptLog.data := (Some
      "0x00000000000000000000000000000000000000000000000000000000000000090000000000000000000000000000000000000000000000000000000000000004");
     ReceiptLog.topics := Some
      ["0xc3d58168c5ae7397731d063d5bbf3d657854427343f4c083240f7aacaa2d0f62";
       "0x0000000000000000000000001111111111111111111111111111111111111111";
       "0x11111111111111111111111111111111111111";
       "0x0000000000000000000000002222222222222222222222222222222222222222"] |}.

(** A TransferBatch of ids 8 and 7, values 1 and 3; its from topic is [short_prefixed_word]. *)
Definition batch_short_from_log : ReceiptLog.t :=
  {| ReceiptLog.log_index := 18;
     ReceiptLog.transaction_hash :=
       "0x9ecd9463c4359a8347da8f0956f897f0b1aca58e12d6a9d9b47d4d07d724a9b2";
     ReceiptLog.block_number := 12345678;
     ReceiptLog.address := "0xD07dc4262BCDbf85190C01c996b4C06a461d2430";
     ReceiptLog.data := (Some
      "0x000000000000000000000000000000000000000000000000000000000000004000000000000000000000000000000000000000000000000000000000000000a0000000000000000000000000000000000000000000000000000000000000000200000000000000000000000000000000000000000000000000000000000000080000000000000000000000000000000000000000000000000000000000000007000000000000000000000000000000000000000000000000000000000000000200000000000000000000000000000000000000000000000000000000000000010000000000000000000000000000000000000000000000000000000000000003");
     ReceiptLog.topics := Some
      ["0x4a39dc06d4c0dbc64b70af90fd698a233a518aa5d07e595d983b8c0526c8f7fb";
       "0x0000000000000000000000001111111111111111111111111111111111111111";
       "0x11111111111111111111111111111111111111";
       "0x0000000000000000000000002222222222222222222222222222222222222222"] |}.


(** ** Properties *)

Lemma index_nth_error {A : Type} (l : list A) (i : N) :
  index l i = nth_error l (N.to_nat i).
Proof.
  revert i. induction l as [|x r IH]; intros i; simpl.
  - now destruct (N.to_nat i).
  - destruct (N.eqb_spec i 0) as [->|Hi]; [reflexivity|].
    rewrite IH, N2Nat.inj_pred.
    destruct (N.to_nat i) eqn:E; [lia | reflexivity].
Qed.

Lemma index_Some_lt {A : Type} (l : list A) (i : N) (x : A) :
  index l i = Some x -> (N.to_nat i < length l)%nat.
Proof.
  rewrite index_nth_error. intros H.
  apply nth_error_Some. congruence.
Qed.

Lemma index_None_ge {A : Type} (l : list A) (i : N) :
  index l i = None <-> (length l <= N.to_nat i)%nat.
Proof. rewrite index_nth_error. apply nth_error_None. Qed.

Lemma getitem_Some {A : Type} (l : list A) (i : N) (x : A) :
  index l i = Some x -> getitem l i = ret x.
Proof. unfold getitem. now intros ->. Qed.

Lemma getitem_None {A : Type} (l : list A) (i : N) :
  index l i = None -> getitem l i = raise IndexError.
Proof. unfold getitem. now intros ->. Qed.

(** The three signatures are pairwise different, so at most one decoder
    matches a first topic. *)
Lemma signatures_distinct :
  TRANSFER_EVENT_TOPIC <> TRANSFER_ERC1155_EVENT_TOPIC /\
  TRANSFER_EVENT_TOPIC <> TRANSFER_BATCH_ERC1155_EVENT_TOPIC /\
  TRANSFER_ERC1155_EVENT_TOPIC <> TRANSFER_BATCH_ERC1155_EVENT_TOPIC.
Proof. repeat split; intros H; discriminate H. Qed.

(** *** The modelled collaborators meet their contracts *)

Lemma lower_char_idempotent c : lower_char (lower_char c) = lower_char c.
Proof. destruct c as [[] [] [] [] [] [] [] []]; reflexivity. Qed.

(** Normalizing a normalized address returns it unchanged. *)
Lemma to_normalized_address_idempotent a :
  utils.to_normalized_address (utils.to_normalized_address a)
  = utils.to_normalized_address a.
Proof.
  unfold utils.to_normalized_address, lower.
  induction a as [|c a IH]; cbn; [reflexivity|].
  now rewrite lower_char_idempotent, IH.
Qed.

(** The normalizer does not see case. *)
Lemma to_normalized_address_case_insensitive a :
  utils.to_normalized_address (casefold a) = utils.to_normalized_address a.
Proof. apply to_normalized_address_idempotent. Qed.

(** The decoder reads a word wider than 64 bits. *)
Example hex_to_dec_wide :
  utils.hex_to_dec
    "0x0000000000000100000000000000000000000000000000000000000000000011"
  = (2 ^ 200 + 17)%N.
Proof. reflexivity. Qed.

Example chunk_string_short_last :
  utils.chunk_string "abcdefg" 3 = ["abc"; "def"; "g"].
Proof. reflexivity. Qed.

(** *** Slices of strings *)

Lemma length_drop n s : String.length (drop n s) = (String.length s - n)%nat.
Proof.
  revert s. induction n as [|n IH]; intros s; cbn.
  - lia.
  - destruct s as [|c s]; cbn; [reflexivity | apply IH].
Qed.

Lemma length_take n s : String.length (take n s) = Nat.min n (String.length s).
Proof.
  revert s. induction n as [|n IH]; intros s; cbn; [reflexivity|].
  destruct s as [|c s]; cbn; [reflexivity | now rewrite IH].
Qed.

Lemma take_drop n s : take n s ++ drop n s = s.
Proof.
  revert s. induction n as [|n IH]; intros s; cbn; [reflexivity|].
  destruct s as [|c s]; cbn; [reflexivity | now rewrite IH].
Qed.

Lemma take_all n s : (String.length s <= n)%nat -> take n s = s.
Proof.
  revert s. induction n as [|n IH]; intros s H.
  - destruct s; [reflexivity | cbn in H; lia].
  - destruct s as [|c s]; cbn; [reflexivity|].
    rewrite IH; [reflexivity | cbn in H; lia].
Qed.

Lemma drop_drop a b s : drop b (drop a s) = drop (a + b) s.
Proof.
  revert s. induction a as [|a IH]; intros s; cbn; [reflexivity|].
  destruct s as [|c s]; [now destruct b | apply IH].
Qed.

Lemma take_add a b s : take (a + b) s = take a s ++ take b (drop a s).
Proof.
  revert s. induction a as [|a IH]; intros s; cbn; [reflexivity|].
  destruct s as [|c s]; cbn; [now destruct b | now rewrite IH].
Qed.

Lemma append_nil_r s : s ++ EmptyString = s.
Proof. induction s as [|c s IH]; cbn; [reflexivity | now rewrite IH]. Qed.

Lemma last_suffix n s :
  (n <= String.length s)%nat ->
  String.length (last n s) = n /\
  s = take (String.length s - n) s ++ last n s.
Proof.
  intros H. unfold last. rewrite length_drop, take_drop. split; [lia | reflexivity].
Qed.

(** The chunks of a string, joined, are the string. *)
Lemma join_chunks s width n :
  join (map (fun k => slice s (k * width) (k * width + width)) (seq 0 n))
  = take (n * width) s.
Proof.
  induction n as [|n IH]; [reflexivity|].
  rewrite seq_S, map_app. cbn [map Nat.add].
  assert (Happ : forall l r, join (l ++ r)%list = join l ++ join r).
  { induction l as [|x l IHl]; intros r; cbn; [reflexivity|].
    rewrite IHl. clear. induction x as [|c x IHx]; cbn; [reflexivity|].
    now rewrite IHx. }
  rewrite Happ, IH. cbn [join]. rewrite append_nil_r.
  unfold slice. replace (n * width + width - n * width)%nat with width by lia.
  replace (S n * width)%nat with (n * width + width)%nat by lia.
  now rewrite take_add.
Qed.

Lemma payload_prefixed words :
  payload (map (fun word => "0x" ++ word) words) = join words.
Proof.
  unfold payload. induction words as [|w r IH]; [reflexivity|].
  cbn [map join]. rewrite IH. reflexivity.
Qed.

Lemma chunk_string_join s width :
  (0 < width)%nat -> join (utils.chunk_string s width) = s.
Proof.
  intros Hw. unfold utils.chunk_string, range_step.
  rewrite map_map. cbn [Nat.add].
  rewrite (join_chunks s width). apply take_all.
  rewrite Nat.sub_0_r.
  pose proof (Nat.div_mod_eq (String.length s + (width - 1)) width) as E.
  pose proof (Nat.mod_upper_bound (String.length s + (width - 1)) width
                ltac:(lia)) as B.
  nia.
Qed.

(** *** Claim C7: the word splitter *)

Lemma starts_with_0x_inv s :
  starts_with_0x s = true -> exists r, s = "0x" ++ r.
Proof.
  unfold starts_with_0x. destruct s as [|c0 [|c1 r]]; cbn [prefix].
  - discriminate.
  - destruct (ascii_dec "0" c0); discriminate.
  - destruct (ascii_dec "0" c0) as [<-|]; [|discriminate].
    destruct (ascii_dec "x" c1) as [<-|]; [|discriminate].
    intros _. now exists r.
Qed.

Lemma split_to_words_long data :
  (2 < String.length data)%nat ->
  split_to_words (Some data) =
  map (fun word => "0x" ++ word) (utils.chunk_string (drop 2 data) 64).
Proof.
  intros H. unfold split_to_words.
  destruct (Nat.eqb_spec (String.length data) 0); [lia|].
  destruct (Nat.ltb_spec 2 (String.length data)); [reflexivity | lia].
Qed.

Lemma split_to_words_short data :
  (String.length data <= 2)%nat -> split_to_words (Some data) = [].
Proof.
  intros H. unfold split_to_words.
  destruct (Nat.ltb_spec 2 (String.length data)); [lia|].
  now rewrite andb_false_r.
Qed.

(** C7, amended.  The splitter returns no word for [None] and for an
    input of at most two characters.  For a longer input it drops the
    first two characters, whatever they are, and returns the rest cut
    into consecutive chunks of 64 characters, the last one possibly
    shorter, each prefixed with 0x: the words carry exactly the input
    without its first two characters.  On an input that starts with 0x
    this is the splitter the specification words. *)
Theorem C7_split_to_words data :
  split_to_words None = [] /\
  ((String.length data <= 2)%nat -> split_to_words (Some data) = []) /\
  ((2 < String.length data)%nat ->
     let words := split_to_words (Some data) in
     payload words = drop 2 data /\
     length words = ((String.length data - 2 + 63) / 64)%nat /\
     forall k w, nth_error words k = Some w ->
       w = "0x" ++ slice (drop 2 data) (k * 64) (k * 64 + 64) /\
       (3 <= String.length w <= 66)%nat /\
       (S k < length words -> String.length w = 66%nat)) /\
  (starts_with_0x data = true ->
     split_to_words (Some data) = split_to_words_spec data).
Proof.
  split; [reflexivity|]. split; [apply split_to_words_short|]. split.
  - intros Hlen words. subst words. rewrite (split_to_words_long _ Hlen).
    pose proof (length_drop 2 data) as Hd.
    remember (drop 2 data) as rest eqn:Hrest.
    split; [|split].
    + rewrite payload_prefixed. apply chunk_string_join. lia.
    + unfold utils.chunk_string, range_step.
      rewrite !length_map, length_seq, Hd. f_equal. lia.
    + intros k w Hk. unfold utils.chunk_string, range_step in *.
      rewrite !length_map, length_seq.
      rewrite !nth_error_map, nth_error_seq in Hk.
      rewrite Nat.sub_0_r in *. cbn [Nat.sub] in *.
      destruct (Nat.ltb_spec k ((String.length rest + 63) / 64)) as [Hlt|];
        [|discriminate Hk].
      cbn [option_map Nat.add] in Hk. injection Hk as <-.
      split; [reflexivity|].
      cbn [append String.length].
      unfold slice. rewrite length_take, length_drop.
      replace (k * 64 + 64 - k * 64)%nat with 64%nat by lia.
      pose proof (Nat.div_mod_eq (String.length rest + 63) 64) as E.
      pose proof (Nat.mod_upper_bound (String.length rest + 63) 64
                    ltac:(lia)) as B.
      split; [lia | intros Hs; lia].
  - intros H0. destruct (starts_with_0x_inv _ H0) as [r ->].
    unfold split_to_words_spec, strip_0x. rewrite H0.
    change (drop 2 ("0x" ++ r)) with r.
    destruct r as [|c r]; [reflexivity|].
    rewrite split_to_words_long by (simpl; lia). reflexivity.
Qed.

(** *** The cut and the normalized word of the specification *)

Lemma strip_0x_length_le w : (String.length (strip_0x w) <= String.length w)%nat.
Proof.
  unfold strip_0x. destruct (starts_with_0x w); [|lia].
  rewrite length_drop. lia.
Qed.

Lemma last_drop n k s :
  (k + n <= String.length s)%nat -> last n (drop k s) = last n s.
Proof.
  intros H. unfold last. rewrite length_drop, drop_drop. f_equal. lia.
Qed.

(** The code's cut is what [word_to_address] returns on a word. *)
Lemma word_to_address_cut to_normalized_address w :
  word_to_address to_normalized_address (Some w)
  = Some (address_cut to_normalized_address w).
Proof.
  unfold word_to_address, address_cut.
  now destruct (40 <=? String.length w)%nat.
Qed.

Lemma transfer_of_cut to_normalized_address receipt_log w_from w_to v tid :
  transfer_of to_normalized_address receipt_log w_from w_to v tid
  = transfer_record to_normalized_address receipt_log
      (address_cut to_normalized_address w_from)
      (address_cut to_normalized_address w_to) v tid.
Proof.
  unfold transfer_of, transfer_record. now rewrite !word_to_address_cut.
Qed.

(** The cut and the specification agree except on a word whose prefix
    alone lifts it to 40 characters. *)
Lemma address_cut_agrees to_normalized_address w :
  (40 <= String.length (strip_0x w))%nat \/ (String.length w < 40)%nat ->
  address_cut to_normalized_address w
  = normalized_word_spec to_normalized_address w.
Proof.
  pose proof (strip_0x_length_le w) as Hle.
  unfold address_cut, normalized_word_spec. intros [Hlong | Hshort].
  - destruct (Nat.leb_spec 40 (String.length w)); [|lia].
    destruct (Nat.leb_spec 40 (String.length (strip_0x w))); [|lia].
    do 2 f_equal. unfold strip_0x in *.
    destruct (starts_with_0x w); [|reflexivity].
    symmetry. apply last_drop. rewrite length_drop in Hlong. lia.
  - destruct (Nat.leb_spec 40 (String.length w)); [lia|].
    destruct (Nat.leb_spec 40 (String.length (strip_0x w))); [lia|].
    reflexivity.
Qed.

Section Properties.

Variable to_normalized_address : string -> string.
Variable hex_to_dec : string -> N.

Local Abbreviation extract :=
  (extract_transfer_from_log to_normalized_address hex_to_dec).
Local Abbreviation word_address := (word_to_address to_normalized_address).
Local Abbreviation transfer := (transfer_of to_normalized_address).

(** *** Dispatch *)

Lemma dispatch_transfer receipt_log t0 rest :
  ReceiptLog.topics receipt_log = Some (t0 :: rest) ->
  casefold t0 = TRANSFER_EVENT_TOPIC ->
  extract receipt_log =
  _handle_transfer to_normalized_address hex_to_dec receipt_log (t0 :: rest).
Proof.
  intros Ht H0. unfold extract_transfer_from_log. rewrite Ht.
  cbn [length Nat.ltb Nat.leb]. unfold getitem. cbn [index N.eqb].
  unfold bind, ret. rewrite H0, String.eqb_refl. reflexivity.
Qed.

Lemma dispatch_erc1155 receipt_log t0 rest :
  ReceiptLog.topics receipt_log = Some (t0 :: rest) ->
  casefold t0 = TRANSFER_ERC1155_EVENT_TOPIC ->
  extract receipt_log =
  _handle_erc1155_transfer to_normalized_address hex_to_dec receipt_log (t0 :: rest).
Proof.
  intros Ht H0. unfold extract_transfer_from_log. rewrite Ht.
  cbn [length Nat.ltb Nat.leb]. unfold getitem. cbn [index N.eqb].
  unfold bind, ret. rewrite H0.
  replace (TRANSFER_ERC1155_EVENT_TOPIC =? TRANSFER_EVENT_TOPIC) with false
    by reflexivity.
  rewrite String.eqb_refl. reflexivity.
Qed.

Lemma dispatch_batch receipt_log t0 rest :
  ReceiptLog.topics receipt_log = Some (t0 :: rest) ->
  casefold t0 = TRANSFER_BATCH_ERC1155_EVENT_TOPIC ->
  extract receipt_log =
  _handle_erc1155_batch_transfer to_normalized_address hex_to_dec receipt_log
    (t0 :: rest).
Proof.
  intros Ht H0. unfold extract_transfer_from_log. rewrite Ht.
  cbn [length Nat.ltb Nat.leb]. unfold getitem. cbn [index N.eqb].
  unfold bind, ret. rewrite H0.
  replace (TRANSFER_BATCH_ERC1155_EVENT_TOPIC =? TRANSFER_EVENT_TOPIC)
    with false by reflexivity.
  replace (TRANSFER_BATCH_ERC1155_EVENT_TOPIC =? TRANSFER_ERC1155_EVENT_TOPIC)
    with false by reflexivity.
  rewrite String.eqb_refl. reflexivity.
Qed.

Lemma dispatch_unknown receipt_log t0 rest :
  ReceiptLog.topics receipt_log = Some (t0 :: rest) ->
  casefold t0 <> TRANSFER_EVENT_TOPIC ->
  casefold t0 <> TRANSFER_ERC1155_EVENT_TOPIC ->
  casefold t0 <> TRANSFER_BATCH_ERC1155_EVENT_TOPIC ->
  extract receipt_log = ret None.
Proof.
  intros Ht HA HB HC. unfold extract_transfer_from_log. rewrite Ht.
  cbn [length Nat.ltb Nat.leb]. unfold getitem. cbn [index N.eqb].
  unfold bind, ret.
  apply String.eqb_neq in HA, HB, HC. now rewrite HA, HB, HC.
Qed.

(** *** Claim C4: absent topics and unknown signatures *)

(** C4.  When [topics] is [None] or empty, or when the first topic, case
    folded, is none of the three signatures, the extractor returns
    [None]; it emits no warning (in particular none when the topics are
    absent or empty). *)
Theorem C4_no_topics_or_unknown_signature receipt_log :
  ReceiptLog.topics receipt_log = None \/
  ReceiptLog.topics receipt_log = Some [] \/
  (exists t0 rest,
      ReceiptLog.topics receipt_log = Some (t0 :: rest) /\
      casefold t0 <> TRANSFER_EVENT_TOPIC /\
      casefold t0 <> TRANSFER_ERC1155_EVENT_TOPIC /\
      casefold t0 <> TRANSFER_BATCH_ERC1155_EVENT_TOPIC) ->
  run (extract receipt_log) = (Return None, []).
Proof.
  intros [H | [H | (t0 & rest & H & HA & HB & HC)]].
  - unfold run, extract_transfer_from_log. now rewrite H.
  - unfold run, extract_transfer_from_log. now rewrite H.
  - unfold run. now rewrite (dispatch_unknown _ _ _ H HA HB HC).
Qed.

(** *** Claim C5: the single-transfer decoder *)

Lemma warn_transfer_identifies receipt_log :
  identifies receipt_log (warn_transfer receipt_log).
Proof.
  exists "The number of topics and data parts is not equal to 4".
  reflexivity.
Qed.

Lemma warn_erc1155_identifies receipt_log :
  identifies receipt_log (warn_erc1155 receipt_log).
Proof.
  exists "The number of topics and data parts is not equal to 6".
  reflexivity.
Qed.

Lemma warn_batch_counts_identifies receipt_log :
  identifies receipt_log (warn_batch_counts receipt_log).
Proof.
  exists "The number of ids and values is not equal".
  reflexivity.
Qed.

(** C5, amended.  For a first topic that matches the Transfer signature:
    a tape of length other than 4 gives [None] and exactly one warning,
    which names the log; a tape of length 4 gives exactly one record and
    no warning, with no token id, the value decoded from word 3, and as
    [from] and [to] the address cuts of words 1 and 2: the normalization
    of 0x followed by the last 40 characters of a word of at least 40
    characters, its prefix counted, and the normalization of the whole
    word otherwise.  The cut of a word is its normalized word in the
    sense of the specification when the word has at least 40 characters
    after its prefix, or fewer than 40 in all. *)
Theorem C5_single_transfer receipt_log t0 rest :
  ReceiptLog.topics receipt_log = Some (t0 :: rest) ->
  casefold t0 = TRANSFER_EVENT_TOPIC ->
  let tape := tape_of receipt_log (t0 :: rest) in
  (length tape <> 4%nat ->
     run (extract receipt_log) = (Return None, [warn_transfer receipt_log]) /\
     identifies receipt_log (warn_transfer receipt_log)) /\
  (length tape = 4%nat ->
     exists w1 w2 w3,
       tape = [t0; w1; w2; w3] /\
       run (extract receipt_log) =
         (Return (Some [transfer_record to_normalized_address receipt_log
                          (address_cut to_normalized_address w1)
                          (address_cut to_normalized_address w2)
                          (hex_to_dec w3) None]), []) /\
       (forall w, In w [w1; w2] ->
          (40 <= String.length (strip_0x w))%nat \/ (String.length w < 40)%nat ->
          address_cut to_normalized_address w
          = normalized_word_spec to_normalized_address w)).
Proof.
  intros Ht H0 tape.
  rewrite (dispatch_transfer _ _ _ Ht H0).
  unfold run, _handle_transfer. fold (tape_of receipt_log (t0 :: rest)).
  fold tape. split; intros Hlen.
  - apply Nat.eqb_neq in Hlen. rewrite Hlen. cbn.
    split; [reflexivity | apply warn_transfer_identifies].
  - rewrite Hlen. cbn [Nat.eqb negb].
    assert (Hhd : exists r, tape = t0 :: r) by (eexists; reflexivity).
    destruct Hhd as [r Hr]. rewrite Hr in Hlen |- *.
    destruct r as [|w1 [|w2 [|w3 [|w4 r]]]]; try discriminate Hlen.
    exists w1, w2, w3. split; [reflexivity|]. split.
    + rewrite <- transfer_of_cut. reflexivity.
    + intros w _. apply address_cut_agrees.
Qed.

(** *** Claim C6: the single-id decoder *)

(** C6, amended.  For a first topic that matches the TransferSingle
    signature: when the tape has exactly 6 words of which exactly 4 are
    topics, the result is one record and no warning, with the token id
    decoded from word 4, the value from word 5, and as [from] and [to]
    the address cuts of words 2 and 3 (0x and the last 40 characters of a
    word of at least 40 characters, its prefix counted; the whole word
    otherwise; normalized); otherwise the result is [None] with one
    warning, which names the log.  The cut of a word is its normalized
    word in the sense of the specification when the word has at least 40
    characters after its prefix, or fewer than 40 in all. *)
Theorem C6_single_id receipt_log t0 rest :
  ReceiptLog.topics receipt_log = Some (t0 :: rest) ->
  casefold t0 = TRANSFER_ERC1155_EVENT_TOPIC ->
  let tape := tape_of receipt_log (t0 :: rest) in
  (length tape = 6%nat /\ length (t0 :: rest) = 4%nat ->
     exists w1 w2 w3 w4 w5,
       t0 :: rest = [t0; w1; w2; w3] /\
       tape = [t0; w1; w2; w3; w4; w5] /\
       run (extract receipt_log) =
         (Return (Some [transfer_record to_normalized_address receipt_log
                          (address_cut to_normalized_address w2)
                          (address_cut to_normalized_address w3)
                          (hex_to_dec w5) (Some (hex_to_dec w4))]), []) /\
       (forall w, In w [w2; w3] ->
          (40 <= String.length (strip_0x w))%nat \/ (String.length w < 40)%nat ->
          address_cut to_normalized_address w
          = normalized_word_spec to_normalized_address w)) /\
  (~ (length tape = 6%nat /\ length (t0 :: rest) = 4%nat) ->
     run (extract receipt_log) = (Return None, [warn_erc1155 receipt_log]) /\
     identifies receipt_log (warn_erc1155 receipt_log)).
Proof.
  intros Ht H0 tape.
  rewrite (dispatch_erc1155 _ _ _ Ht H0).
  unfold run, _handle_erc1155_transfer.
  fold (tape_of receipt_log (t0 :: rest)). fold tape.
  split.
  - intros [Hlen Htop]. rewrite Hlen, Htop. cbn [Nat.eqb negb orb].
    destruct rest as [|w1 [|w2 [|w3 [|w4 r]]]]; try discriminate Htop.
    subst tape. unfold tape_of in *. cbn [app] in *.
    destruct (split_to_words (ReceiptLog.data receipt_log))
      as [|w4 [|w5 [|w6 r]]]; try discriminate Hlen.
    exists w1, w2, w3, w4, w5.
    split; [reflexivity|]. split; [reflexivity|]. split.
    + rewrite <- transfer_of_cut. reflexivity.
    + intros w _. apply address_cut_agrees.
  - intros Hn.
    assert (Hb : negb (length tape =? 6)%nat
                 || negb (length (t0 :: rest) =? 4)%nat = true).
    { destruct (Nat.eqb_spec (length tape) 6);
        destruct (Nat.eqb_spec (length (t0 :: rest)) 4);
        try reflexivity.
      exfalso. apply Hn. now split. }
    rewrite Hb. cbn.
    split; [reflexivity | apply warn_erc1155_identifies].
Qed.

(** *** The batch decoder *)

(** The batch decoder on exactly four topics, past its first guard. *)
Lemma batch_four_topics receipt_log t0 t1 t2 t3 w6 wn :
  let tape := tape_of receipt_log [t0; t1; t2; t3] in
  index tape 6 = Some w6 ->
  index tape (6 + hex_to_dec w6 + 1) = Some wn ->
  _handle_erc1155_batch_transfer to_normalized_address hex_to_dec receipt_log
    [t0; t1; t2; t3] [] =
  if negb (hex_to_dec w6 =? hex_to_dec wn)%N
  then (Return None, [warn_batch_counts receipt_log])
  else
    bind (for_each (range (hex_to_dec w6))
            (batch_body to_normalized_address hex_to_dec receipt_log tape
               (hex_to_dec w6)) [])
         (fun token_transfers => ret (Some token_transfers)) [].
Proof.
  intros tape H6 Hn. unfold _handle_erc1155_batch_transfer.
  fold (tape_of receipt_log [t0; t1; t2; t3]). fold tape.
  cbn [length Nat.eqb negb].
  rewrite (getitem_Some _ _ _ H6). unfold bind at 1. unfold ret at 1.
  rewrite (getitem_Some _ _ _ Hn). unfold bind at 1. unfold ret at 1.
  destruct (negb (hex_to_dec w6 =? hex_to_dec wn)%N); reflexivity.
Qed.

(** C3.  For a batch log with exactly 4 topics whose ids length at index
    6 differs from the values length at index [6 + N + 1], the extractor
    returns no records ([None]) and emits exactly one warning, which
    names the log by index and transaction hash. *)
Theorem C3_batch_length_mismatch receipt_log t0 t1 t2 t3 w6 wn :
  ReceiptLog.topics receipt_log = Some [t0; t1; t2; t3] ->
  casefold t0 = TRANSFER_BATCH_ERC1155_EVENT_TOPIC ->
  let tape := tape_of receipt_log [t0; t1; t2; t3] in
  index tape 6 = Some w6 ->
  index tape (6 + hex_to_dec w6 + 1) = Some wn ->
  hex_to_dec w6 <> hex_to_dec wn ->
  run (extract receipt_log) = (Return None, [warn_batch_counts receipt_log]) /\
  identifies receipt_log (warn_batch_counts receipt_log).
Proof.
  intros Ht H0 tape H6 Hn Hneq.
  rewrite (dispatch_batch _ _ _ Ht H0). unfold run.
  rewrite (batch_four_topics _ _ _ _ _ _ _ H6 Hn).
  apply N.eqb_neq in Hneq. rewrite Hneq. cbn [negb].
  split; [reflexivity | apply warn_batch_counts_identifies].
Qed.

(** C10.  A batch log with exactly 4 topics whose two lengths, at
    indices 6 and 7, are both zero yields the empty list of records and
    no warning: [Some []], which is not the [None] of the rejections. *)
Theorem C10_batch_of_zero receipt_log t0 t1 t2 t3 w6 w7 :
  ReceiptLog.topics receipt_log = Some [t0; t1; t2; t3] ->
  casefold t0 = TRANSFER_BATCH_ERC1155_EVENT_TOPIC ->
  let tape := tape_of receipt_log [t0; t1; t2; t3] in
  index tape 6 = Some w6 -> hex_to_dec w6 = 0%N ->
  index tape 7 = Some w7 -> hex_to_dec w7 = 0%N ->
  run (extract receipt_log) = (Return (Some []), []) /\
  Some (@nil EthTokenTransfer.t) <> None.
Proof.
  intros Ht H0 tape H6 Hz6 H7 Hz7.
  rewrite (dispatch_batch _ _ _ Ht H0). unfold run.
  assert (Hn : index tape (6 + hex_to_dec w6 + 1) = Some w7)
    by (rewrite Hz6; exact H7).
  rewrite (batch_four_topics _ _ _ _ _ _ _ H6 Hn).
  rewrite Hz6, Hz7. cbn. split; [reflexivity | discriminate].
Qed.

(** One iteration of the loop whose four reads succeed. *)
Lemma batch_body_ok receipt_log tape n i wid wval w2 w3 acc w :
  index tape (6 + 1 + i) = Some wid ->
  index tape (6 + n + 1 + i + 1) = Some wval ->
  index tape 2 = Some w2 -> index tape 3 = Some w3 ->
  batch_body to_normalized_address hex_to_dec receipt_log tape n i acc w =
  (Return (acc ++ [transfer receipt_log w2 w3 (hex_to_dec wval)
                            (Some (hex_to_dec wid))])%list, w).
Proof.
  intros Eid Eval H2 H3. unfold batch_body.
  rewrite (getitem_Some _ _ _ Eid), (getitem_Some _ _ _ Eval),
    (getitem_Some _ _ _ H2), (getitem_Some _ _ _ H3).
  reflexivity.
Qed.

(** The loop of the batch decoder over [a, a + k): when every word it
    reads exists, it appends one record per index, in order, and emits
    nothing. *)
Lemma batch_loop_ok receipt_log tape n w2 w3 :
  index tape 2 = Some w2 -> index tape 3 = Some w3 ->
  forall k a acc w,
    (forall i, (a <= i < a + k)%nat ->
       index tape (6 + 1 + N.of_nat i) <> None /\
       index tape (6 + n + 1 + N.of_nat i + 1) <> None) ->
    exists recs,
      for_each (map N.of_nat (seq a k))
        (batch_body to_normalized_address hex_to_dec receipt_log tape n) acc w
      = (Return (acc ++ recs)%list, w) /\
      length recs = k /\
      forall j, (j < k)%nat ->
        exists wid wval,
          index tape (6 + 1 + N.of_nat (a + j)) = Some wid /\
          index tape (6 + n + 1 + N.of_nat (a + j) + 1) = Some wval /\
          nth_error recs j =
            Some (transfer receipt_log w2 w3 (hex_to_dec wval)
                           (Some (hex_to_dec wid))).
Proof.
  intros H2 H3. induction k as [|k IH]; intros a acc w Hall.
  - exists []. cbn. rewrite app_nil_r.
    split; [reflexivity | split; [reflexivity | intros j Hj; lia]].
  - destruct (Hall a ltac:(lia)) as [Hid Hval].
    destruct (index tape (6 + 1 + N.of_nat a)) as [wid|] eqn:Eid;
      [|congruence].
    destruct (index tape (6 + n + 1 + N.of_nat a + 1)) as [wval|] eqn:Eval;
      [|congruence].
    set (r := transfer receipt_log w2 w3 (hex_to_dec wval)
                       (Some (hex_to_dec wid))).
    destruct (IH (S a) (acc ++ [r])%list w) as (recs & Hrun & Hlen & Hnth).
    { intros i Hi. apply Hall. lia. }
    exists (r :: recs). split; [|split].
    + cbn [seq map for_each]. unfold bind at 1.
      rewrite (batch_body_ok _ _ _ _ _ _ _ _ _ _ Eid Eval H2 H3).
      fold r. rewrite Hrun. now rewrite <- app_assoc.
    + cbn. now rewrite Hlen.
    + intros [|j] Hj.
      * exists wid, wval. rewrite Nat.add_0_r. repeat split; assumption.
      * destruct (Hnth j ltac:(lia)) as (wid' & wval' & E1 & E2 & E3).
        exists wid', wval'.
        replace (a + S j)%nat with (S a + j)%nat by lia.
        repeat split; assumption.
Qed.

(** *** Claim C1: a well-formed batch *)

(** C1, amended.  For a batch log with exactly 4 topics whose ids length
    [N] at index 6 equals the values length at index [6 + N + 1], and
    whose indexed words all exist, the extractor returns exactly [N]
    records and no warning; record [i] has the token id of word
    [6 + 1 + i] and the value of word [6 + N + 1 + i + 1], and every
    record has the normalized address of the log and, as [from] and [to],
    the address cuts of words 2 and 3 (0x and the last 40 characters of a
    word of at least 40 characters, its prefix counted; the whole word
    otherwise; normalized).  The cut of a word is its normalized word in
    the sense of the specification when the word has at least 40
    characters after its prefix, or fewer than 40 in all. *)
Theorem C1_batch_transfer receipt_log t0 t1 t2 t3 w6 wn :
  ReceiptLog.topics receipt_log = Some [t0; t1; t2; t3] ->
  casefold t0 = TRANSFER_BATCH_ERC1155_EVENT_TOPIC ->
  let tape := tape_of receipt_log [t0; t1; t2; t3] in
  index tape 6 = Some w6 ->
  let n := hex_to_dec w6 in
  index tape (6 + n + 1) = Some wn ->
  hex_to_dec wn = n ->
  (forall i, (i < n)%N ->
     index tape (6 + 1 + i) <> None /\
     index tape (6 + n + 1 + i + 1) <> None) ->
  exists records,
    run (extract receipt_log) = (Return (Some records), []) /\
    length records = N.to_nat n /\
    (forall i, (i < n)%N ->
       exists wid wval,
         index tape (6 + 1 + i) = Some wid /\
         index tape (6 + n + 1 + i + 1) = Some wval /\
         nth_error records (N.to_nat i) =
           Some (transfer_record to_normalized_address receipt_log
                   (address_cut to_normalized_address t2)
                   (address_cut to_normalized_address t3)
                   (hex_to_dec wval) (Some (hex_to_dec wid)))) /\
    (forall w, In w [t2; t3] ->
       (40 <= String.length (strip_0x w))%nat \/ (String.length w < 40)%nat ->
       address_cut to_normalized_address w
       = normalized_word_spec to_normalized_address w).
Proof.
  intros Ht H0 tape H6 n Hn Heq Hall.
  rewrite (dispatch_batch _ _ _ Ht H0). unfold run.
  rewrite (batch_four_topics _ _ _ _ _ _ _ H6 Hn).
  fold n. rewrite Heq, N.eqb_refl. cbn [negb]. fold tape.
  destruct (batch_loop_ok receipt_log tape n t2 t3 eq_refl eq_refl
              (N.to_nat n) 0%nat [] [])
    as (recs & Hrun & Hlen & Hnth).
  { intros i Hi. apply Hall. lia. }
  exists recs. split; [|split; [|split]].
  - unfold bind, range. rewrite Hrun. reflexivity.
  - exact Hlen.
  - intros i Hi.
    destruct (Hnth (N.to_nat i) ltac:(lia)) as (wid & wval & E1 & E2 & E3).
    cbn [Nat.add] in E1, E2. rewrite N2Nat.id in E1, E2.
    rewrite transfer_of_cut in E3.
    exists wid, wval. repeat split; assumption.
  - intros w _. apply address_cut_agrees.
Qed.

(** *** Claim C9: the shape of every record *)

Lemma word_to_address_normalized w :
  normalized to_normalized_address (word_address (Some w)).
Proof.
  unfold normalized, word_to_address.
  destruct (40 <=? String.length w)%nat; eexists; reflexivity.
Qed.

(** What every decoder guarantees of a record built by [transfer_of]. *)
Lemma transfer_of_shape receipt_log w_from w_to v tid :
  let r := transfer receipt_log w_from w_to v tid in
  normalized to_normalized_address (EthTokenTransfer.from_address r) /\
  normalized to_normalized_address (EthTokenTransfer.to_address r) /\
  EthTokenTransfer.token_address r =
    Some (to_normalized_address (ReceiptLog.address receipt_log)) /\
  EthTokenTransfer.value r <> None /\
  EthTokenTransfer.token_id r = tid.
Proof.
  cbn. repeat split; try apply word_to_address_normalized. discriminate.
Qed.

Ltac step_reads H :=
  unfold bind, getitem, ret, raise, warning in H;
  repeat match type of H with
    | context [match index ?l ?i with _ => _ end] =>
        destruct (index l i) eqn:?
    end.

Lemma handle_transfer_records receipt_log topics records w w' :
  _handle_transfer to_normalized_address hex_to_dec receipt_log topics w
  = (Return (Some records), w') ->
  exists w1 w2 v, records = [transfer receipt_log w1 w2 v None].
Proof.
  unfold _handle_transfer. intros H.
  destruct (negb _); step_reads H; inversion H; subst.
  eexists _, _, _. reflexivity.
Qed.

Lemma handle_erc1155_transfer_records receipt_log topics records w w' :
  _handle_erc1155_transfer to_normalized_address hex_to_dec receipt_log topics w
  = (Return (Some records), w') ->
  exists w2 w3 v tid, records = [transfer receipt_log w2 w3 v (Some tid)].
Proof.
  unfold _handle_erc1155_transfer. intros H.
  destruct (_ || _); step_reads H; inversion H; subst.
  eexists _, _, _, _. reflexivity.
Qed.

Lemma batch_body_records receipt_log tape n i acc w res w' :
  batch_body to_normalized_address hex_to_dec receipt_log tape n i acc w
  = (Return res, w') ->
  exists w2 w3 v tid,
    res = (acc ++ [transfer receipt_log w2 w3 v (Some tid)])%list.
Proof.
  unfold batch_body. intros H. step_reads H; inversion H; subst.
  eexists _, _, _, _. reflexivity.
Qed.

Lemma batch_loop_records receipt_log tape n l :
  forall acc w res w',
    Forall (fun r => exists w2 w3 v tid,
              r = transfer receipt_log w2 w3 v (Some tid)) acc ->
    for_each l (batch_body to_normalized_address hex_to_dec receipt_log tape n)
      acc w = (Return res, w') ->
    Forall (fun r => exists w2 w3 v tid,
              r = transfer receipt_log w2 w3 v (Some tid)) res.
Proof.
  induction l as [|i l IH]; intros acc w res w' Hacc H; cbn in H.
  - inversion H; subst. exact Hacc.
  - unfold bind in H.
    destruct (batch_body _ _ _ _ _ _ _ _) as [[res1|e] w1] eqn:E;
      [|discriminate H].
    apply batch_body_records in E. destruct E as (w2 & w3 & v & tid & ->).
    apply (IH _ _ _ _) in H; [exact H|].
    apply Forall_app. split; [exact Hacc|].
    constructor; [|constructor]. eexists _, _, _, _. reflexivity.
Qed.

Lemma handle_erc1155_batch_transfer_records receipt_log topics records w w' :
  _handle_erc1155_batch_transfer to_normalized_address hex_to_dec receipt_log
    topics w = (Return (Some records), w') ->
  Forall (fun r => exists w2 w3 v tid,
            r = transfer receipt_log w2 w3 v (Some tid)) records.
Proof.
  unfold _handle_erc1155_batch_transfer. intros H.
  destruct (negb (length topics =? 4)%nat); [cbn in H; discriminate H|].
  unfold bind at 1 in H. unfold getitem at 1 in H.
  destruct (index _ 6) as [w6|]; [|discriminate H]. unfold ret at 1 in H.
  unfold bind at 1 in H. unfold getitem at 1 in H.
  destruct (index _ (6 + hex_to_dec w6 + 1)) as [wn|]; [|discriminate H].
  unfold ret at 1 in H.
  destruct (negb _); [cbn in H; discriminate H|].
  unfold bind in H.
  destruct (for_each _ _ _ _) as [[res|e] w1] eqn:E; [|discriminate H].
  inversion H; subst.
  exact (batch_loop_records _ _ _ _ _ _ _ _ (Forall_nil _) E).
Qed.

(** C9.  Every record the extractor returns has normalized [from] and
    [to] addresses, the normalized address of the log as token address,
    and a value; its token id is present exactly when the first topic
    of the log selects the TransferSingle or the TransferBatch
    decoder. *)
Theorem C9_record_invariant receipt_log records warnings r :
  run (extract receipt_log) = (Return (Some records), warnings) ->
  In r records ->
  normalized to_normalized_address (EthTokenTransfer.from_address r) /\
  normalized to_normalized_address (EthTokenTransfer.to_address r) /\
  EthTokenTransfer.token_address r =
    Some (to_normalized_address (ReceiptLog.address receipt_log)) /\
  EthTokenTransfer.value r <> None /\
  (EthTokenTransfer.token_id r <> None <->
   exists t0 rest,
     ReceiptLog.topics receipt_log = Some (t0 :: rest) /\
     (casefold t0 = TRANSFER_ERC1155_EVENT_TOPIC \/
      casefold t0 = TRANSFER_BATCH_ERC1155_EVENT_TOPIC)).
Proof.
  intros Hrun Hin.
  destruct (ReceiptLog.topics receipt_log) as [[|t0 rest]|] eqn:Ht;
    try (unfold run, extract_transfer_from_log in Hrun; rewrite Ht in Hrun;
         discriminate Hrun).
  destruct (String.eqb_spec (casefold t0) TRANSFER_EVENT_TOPIC) as [HA|HA];
    [|destruct (String.eqb_spec (casefold t0) TRANSFER_ERC1155_EVENT_TOPIC)
        as [HB|HB];
      [|destruct (String.eqb_spec (casefold t0)
                    TRANSFER_BATCH_ERC1155_EVENT_TOPIC) as [HC|HC]]].
  - rewrite (dispatch_transfer _ _ _ Ht HA) in Hrun.
    apply handle_transfer_records in Hrun.
    destruct Hrun as (w1 & w2 & v & ->).
    destruct Hin as [<-|[]].
    destruct (transfer_of_shape receipt_log w1 w2 v None)
      as (Hf & Hto & Hta & Hv & Hid).
    repeat split; try assumption.
    + intros Hn. now rewrite Hid in Hn.
    + intros (t0' & rest' & E & [HB|HC]); injection E as <- <-;
        rewrite HA in *; discriminate.
  - rewrite (dispatch_erc1155 _ _ _ Ht HB) in Hrun.
    apply handle_erc1155_transfer_records in Hrun.
    destruct Hrun as (w2 & w3 & v & tid & ->).
    destruct Hin as [<-|[]].
    destruct (transfer_of_shape receipt_log w2 w3 v (Some tid))
      as (Hf & Hto & Hta & Hv & Hid).
    repeat split; try assumption.
    + intros _. exists t0, rest. split; [reflexivity | now left].
    + intros _. rewrite Hid. discriminate.
  - rewrite (dispatch_batch _ _ _ Ht HC) in Hrun.
    apply handle_erc1155_batch_transfer_records in Hrun.
    rewrite Forall_forall in Hrun.
    destruct (Hrun r Hin) as (w2 & w3 & v & tid & ->).
    destruct (transfer_of_shape receipt_log w2 w3 v (Some tid))
      as (Hf & Hto & Hta & Hv & Hid).
    repeat split; try assumption.
    + intros _. exists t0, rest. split; [reflexivity | now right].
    + intros _. rewrite Hid. discriminate.
  - rewrite (dispatch_unknown _ _ _ Ht HA HB HC) in Hrun.
    discriminate Hrun.
Qed.

(** *** Claim C8: the address-word normalizer *)

Lemma length_strip_0x p : (String.length (strip_0x p) <= String.length p)%nat.
Proof.
  unfold strip_0x. destruct (starts_with_0x p); [|lia].
  rewrite length_drop. lia.
Qed.

(** C8, amended.  [word_to_address] returns [None] for [None].  For a
    word of at least 40 characters, its prefix counted, it returns the
    normalization of 0x followed by the last 40 characters of the word;
    this covers every word with at least 40 characters after its 0x
    prefix.  For a word of fewer than 40 characters in all it returns
    the normalization of the whole word. *)
Theorem C8_word_to_address :
  word_address None = None /\
  (forall p, (40 <= String.length p)%nat ->
     word_address (Some p) = Some (to_normalized_address ("0x" ++ last 40 p)) /\
     String.length (last 40 p) = 40%nat /\
     p = take (String.length p - 40) p ++ last 40 p) /\
  (forall p, (40 <= String.length (strip_0x p))%nat ->
     word_address (Some p) = Some (to_normalized_address ("0x" ++ last 40 p))) /\
  (forall p, (String.length p < 40)%nat ->
     word_address (Some p) = Some (to_normalized_address p)).
Proof.
  assert (Hlong : forall p, (40 <= String.length p)%nat ->
            word_address (Some p) =
            Some (to_normalized_address ("0x" ++ last 40 p))).
  { intros p Hp. unfold word_to_address.
    destruct (Nat.leb_spec 40 (String.length p)); [reflexivity | lia]. }
  split; [reflexivity|]. split; [|split].
  - intros p Hp. split; [now apply Hlong | now apply last_suffix].
  - intros p Hp. apply Hlong. pose proof (length_strip_0x p). lia.
  - intros p Hp. unfold word_to_address.
    destruct (Nat.leb_spec 40 (String.length p)); [lia | reflexivity].
Qed.

(** *** Claim C2: a raise in the batch decoder *)

(** Four topics with the TransferBatch signature and a tape of fewer
    than seven words: the read of the ids length raises. *)
Lemma batch_short_tape_raises receipt_log t0 t1 t2 t3 :
  ReceiptLog.topics receipt_log = Some [t0; t1; t2; t3] ->
  casefold t0 = TRANSFER_BATCH_ERC1155_EVENT_TOPIC ->
  (length (tape_of receipt_log [t0; t1; t2; t3]) <= 6)%nat ->
  run (extract receipt_log) = (Raise IndexError, []).
Proof.
  intros Ht H0 Hlen. rewrite (dispatch_batch _ _ _ Ht H0).
  unfold run, _handle_erc1155_batch_transfer.
  fold (tape_of receipt_log [t0; t1; t2; t3]).
  cbn [length Nat.eqb negb].
  rewrite getitem_None; [reflexivity|].
  apply index_None_ge. exact Hlen.
Qed.

(** C2.  The extractor does raise: on the log with the TransferBatch
    signature, four topics and the empty data 0x, the tape has four
    words and the read at index 6 raises [IndexError]; no warning is
    emitted and nothing is returned. *)
Theorem C2_batch_without_data_raises :
  run (extract batch_no_data_log) = (Raise IndexError, []).
Proof.
  apply (batch_short_tape_raises batch_no_data_log
           TRANSFER_BATCH_ERC1155_EVENT_TOPIC operator_word from_word to_word).
  - reflexivity.
  - reflexivity.
  - cbn. lia.
Qed.

End Properties.

(** ** The properties on the sample logs *)

(** [batch_log] meets the hypotheses of C1: two records come out. *)
Lemma C1_batch_transfer_witness :
  let topics := [TRANSFER_BATCH_ERC1155_EVENT_TOPIC; operator_word; from_word;
                 to_word] in
  let tape := tape_of batch_log topics in
  ReceiptLog.topics batch_log = Some topics /\
  casefold TRANSFER_BATCH_ERC1155_EVENT_TOPIC = TRANSFER_BATCH_ERC1155_EVENT_TOPIC /\
  option_map utils.hex_to_dec (index tape 6) = Some 2%N /\
  option_map utils.hex_to_dec (index tape (6 + 2 + 1)) = Some 2%N /\
  (forall i, (i < 2)%N ->
     index tape (6 + 1 + i) <> None /\ index tape (6 + 2 + 1 + i + 1) <> None) /\
  exists records,
    run (extract_model batch_log) = (Return (Some records), []) /\
    length records = 2%nat.
Proof.
  intros topics tape.
  assert (Hall : forall i, (i < 2)%N ->
            index tape (6 + 1 + i) <> None /\
            index tape (6 + 2 + 1 + i + 1) <> None).
  { intros i Hi. assert (E : i = 0%N \/ i = 1%N) by lia.
    destruct E as [-> | ->]; split; discriminate. }
  do 4 (split; [reflexivity|]). split; [exact Hall|].
  destruct (C1_batch_transfer utils.to_normalized_address utils.hex_to_dec
              batch_log TRANSFER_BATCH_ERC1155_EVENT_TOPIC operator_word
              from_word to_word
              "0x0000000000000000000000000000000000000000000000000000000000000002"
              "0x0000000000000000000000000000000000000000000000000000000000000002"
              eq_refl eq_refl eq_refl eq_refl eq_refl Hall)
    as (records & Hrun & Hlen & _).
  exists records. split; [exact Hrun | exact Hlen].
Defined.

(** [batch_mismatch_log] announces two ids and one value. *)
Lemma C3_batch_length_mismatch_witness :
  let topics := [TRANSFER_BATCH_ERC1155_EVENT_TOPIC; operator_word; from_word;
                 to_word] in
  let tape := tape_of batch_mismatch_log topics in
  ReceiptLog.topics batch_mismatch_log = Some topics /\
  casefold TRANSFER_BATCH_ERC1155_EVENT_TOPIC = TRANSFER_BATCH_ERC1155_EVENT_TOPIC /\
  option_map utils.hex_to_dec (index tape 6) = Some 2%N /\
  option_map utils.hex_to_dec (index tape (6 + 2 + 1)) = Some 1%N /\
  run (extract_model batch_mismatch_log) =
    (Return None, [warn_batch_counts batch_mismatch_log]) /\
  identifies batch_mismatch_log (warn_batch_counts batch_mismatch_log).
Proof.
  intros topics tape.
  do 4 (split; [reflexivity|]).
  apply (C3_batch_length_mismatch utils.to_normalized_address utils.hex_to_dec
           batch_mismatch_log TRANSFER_BATCH_ERC1155_EVENT_TOPIC operator_word
           from_word to_word
           "0x0000000000000000000000000000000000000000000000000000000000000002"
           "0x0000000000000000000000000000000000000000000000000000000000000001"
           eq_refl eq_refl eq_refl eq_refl).
  vm_compute. discriminate.
Defined.

(** No topics, an empty list of topics, an Approval event. *)
Lemma C4_no_topics_or_unknown_signature_witness :
  ReceiptLog.topics anonymous_log = None /\
  ReceiptLog.topics empty_topics_log = Some [] /\
  (exists t0 rest,
      ReceiptLog.topics unknown_log = Some (t0 :: rest) /\
      casefold t0 <> TRANSFER_EVENT_TOPIC /\
      casefold t0 <> TRANSFER_ERC1155_EVENT_TOPIC /\
      casefold t0 <> TRANSFER_BATCH_ERC1155_EVENT_TOPIC) /\
  run (extract_model anonymous_log) = (Return None, []) /\
  run (extract_model empty_topics_log) = (Return None, []) /\
  run (extract_model unknown_log) = (Return None, []).
Proof.
  assert (Hu : exists t0 rest,
             ReceiptLog.topics unknown_log = Some (t0 :: rest) /\
             casefold t0 <> TRANSFER_EVENT_TOPIC /\
             casefold t0 <> TRANSFER_ERC1155_EVENT_TOPIC /\
             casefold t0 <> TRANSFER_BATCH_ERC1155_EVENT_TOPIC).
  { eexists _, _. split; [reflexivity|].
    repeat split; vm_compute; discriminate. }
  split; [reflexivity|]. split; [reflexivity|]. split; [exact Hu|].
  split; [|split].
  - apply (C4_no_topics_or_unknown_signature utils.to_normalized_address
             utils.hex_to_dec anonymous_log).
    left. reflexivity.
  - apply (C4_no_topics_or_unknown_signature utils.to_normalized_address
             utils.hex_to_dec empty_topics_log).
    right. left. reflexivity.
  - apply (C4_no_topics_or_unknown_signature utils.to_normalized_address
             utils.hex_to_dec unknown_log).
    right. right. exact Hu.
Defined.

(** A Transfer of four words and one of three. *)
Lemma C5_single_transfer_witness :
  (exists t0 rest,
      ReceiptLog.topics transfer_log = Some (t0 :: rest) /\
      casefold t0 = TRANSFER_EVENT_TOPIC /\
      length (tape_of transfer_log (t0 :: rest)) = 4%nat) /\
  (exists t0 rest,
      ReceiptLog.topics transfer_short_log = Some (t0 :: rest) /\
      casefold t0 = TRANSFER_EVENT_TOPIC /\
      length (tape_of transfer_short_log (t0 :: rest)) <> 4%nat) /\
  (exists w1 w2 w3,
      run (extract_model transfer_log) =
        (Return (Some [transfer_record utils.to_normalized_address transfer_log
                         (address_cut utils.to_normalized_address w1)
                         (address_cut utils.to_normalized_address w2)
                         (utils.hex_to_dec w3) None]), [])) /\
  run (extract_model transfer_short_log) =
    (Return None, [warn_transfer transfer_short_log]).
Proof.
  split; [|split; [|split]].
  - eexists _, _. repeat split; reflexivity.
  - eexists _, _. split; [reflexivity|]. split; [reflexivity|].
    vm_compute. discriminate.
  - destruct (C5_single_transfer utils.to_normalized_address utils.hex_to_dec
                transfer_log _ _ eq_refl eq_refl) as [_ Hok].
    destruct (Hok eq_refl) as (w1 & w2 & w3 & _ & Hrun & _).
    exists w1, w2, w3. exact Hrun.
  - destruct (C5_single_transfer utils.to_normalized_address utils.hex_to_dec
                transfer_short_log _ _ eq_refl eq_refl) as [Hbad _].
    apply Hbad. vm_compute. discriminate.
Defined.

(** A TransferSingle, and six words of which three are topics. *)
Lemma C6_single_id_witness :
  (exists t0 rest,
      ReceiptLog.topics single_log = Some (t0 :: rest) /\
      casefold t0 = TRANSFER_ERC1155_EVENT_TOPIC /\
      length (tape_of single_log (t0 :: rest)) = 6%nat /\
      length (t0 :: rest) = 4%nat) /\
  (exists t0 rest,
      ReceiptLog.topics single_three_topics_log = Some (t0 :: rest) /\
      casefold t0 = TRANSFER_ERC1155_EVENT_TOPIC /\
      length (tape_of single_three_topics_log (t0 :: rest)) = 6%nat /\
      length (t0 :: rest) <> 4%nat) /\
  (exists w2 w3 w4 w5,
      run (extract_model single_log) =
        (Return (Some [transfer_record utils.to_normalized_address single_log
                         (address_cut utils.to_normalized_address w2)
                         (address_cut utils.to_normalized_address w3)
                         (utils.hex_to_dec w5)
                         (Some (utils.hex_to_dec w4))]), [])) /\
  run (extract_model single_three_topics_log) =
    (Return None, [warn_erc1155 single_three_topics_log]).
Proof.
  split; [|split; [|split]].
  - eexists _, _. repeat split; reflexivity.
  - eexists _, _. split; [reflexivity|]. split; [reflexivity|].
    split; [reflexivity|]. vm_compute. discriminate.
  - destruct (C6_single_id utils.to_normalized_address utils.hex_to_dec
                single_log _ _ eq_refl eq_refl) as [Hok _].
    destruct (Hok (conj eq_refl eq_refl))
      as (w1 & w2 & w3 & w4 & w5 & _ & _ & Hrun & _).
    exists w2, w3, w4, w5. exact Hrun.
  - destruct (C6_single_id utils.to_normalized_address utils.hex_to_dec
                single_three_topics_log _ _ eq_refl eq_refl) as [_ Hbad].
    apply Hbad. intros [_ H]. vm_compute in H. discriminate H.
Defined.

(** [batch_of_zero_log]: both arrays are empty. *)
Lemma C10_batch_of_zero_witness :
  let topics := [TRANSFER_BATCH_ERC1155_EVENT_TOPIC; operator_word; from_word;
                 to_word] in
  let tape := tape_of batch_of_zero_log topics in
  ReceiptLog.topics batch_of_zero_log = Some topics /\
  casefold TRANSFER_BATCH_ERC1155_EVENT_TOPIC = TRANSFER_BATCH_ERC1155_EVENT_TOPIC /\
  option_map utils.hex_to_dec (index tape 6) = Some 0%N /\
  option_map utils.hex_to_dec (index tape 7) = Some 0%N /\
  run (extract_model batch_of_zero_log) = (Return (Some []), []).
Proof.
  intros topics tape.
  do 4 (split; [reflexivity|]).
  apply (C10_batch_of_zero utils.to_normalized_address utils.hex_to_dec
           batch_of_zero_log TRANSFER_BATCH_ERC1155_EVENT_TOPIC operator_word
           from_word to_word
           "0x0000000000000000000000000000000000000000000000000000000000000000"
           "0x0000000000000000000000000000000000000000000000000000000000000000"
           eq_refl eq_refl eq_refl eq_refl eq_refl eq_refl).
Defined.

(** The splitter on a bare string, on the bare prefix and on a prefixed
    string. *)
Lemma C7_split_to_words_witness :
  (2 < String.length "abcdef")%nat /\
  (String.length "0x" <= 2)%nat /\
  starts_with_0x "0xabcdef" = true /\
  payload (split_to_words (Some "abcdef")) = "cdef" /\
  split_to_words (Some "0x") = [] /\
  split_to_words (Some "0xabcdef") = split_to_words_spec "0xabcdef".
Proof.
  split; [simpl; lia|]. split; [simpl; lia|]. split; [reflexivity|].
  split; [|split].
  - destruct (C7_split_to_words "abcdef") as (_ & _ & Hlong & _).
    destruct (Hlong ltac:(simpl; lia)) as [Hpay _]. exact Hpay.
  - destruct (C7_split_to_words "0x") as (_ & Hshort & _).
    apply Hshort. cbn. lia.
  - destruct (C7_split_to_words "0xabcdef") as (_ & _ & _ & Hspec).
    apply Hspec. reflexivity.
Defined.

(** C7 as stated fails: on an input that does not start with 0x the
    splitter discards the first two characters, so the words do not carry
    the input and differ from the splitter of the specification. *)
Lemma C7_counterexample :
  starts_with_0x "abcdef" = false /\
  split_to_words (Some "abcdef") = ["0xcdef"] /\
  payload (split_to_words (Some "abcdef")) <> "abcdef" /\
  split_to_words (Some "abcdef") <> split_to_words_spec "abcdef".
Proof.
  split; [reflexivity|]. split; [reflexivity|].
  split; vm_compute; discriminate.
Qed.

(** A full word of 66 characters and a short word. *)
Lemma C8_word_to_address_witness :
  (40 <= String.length from_word)%nat /\
  (String.length "0xabc" < 40)%nat /\
  word_to_address utils.to_normalized_address (Some from_word) =
    Some (utils.to_normalized_address ("0x" ++ last 40 from_word)) /\
  word_to_address utils.to_normalized_address (Some "0xabc") =
    Some (utils.to_normalized_address "0xabc").
Proof.
  split; [vm_compute; lia|]. split; [vm_compute; lia|].
  destruct (C8_word_to_address utils.to_normalized_address)
    as (_ & Hlong & _ & Hshort).
  split.
  - apply Hlong. vm_compute. lia.
  - apply Hshort. vm_compute. lia.
Defined.

(** C8 as stated fails: a prefixed word with 38 characters after its 0x
    is shorter than 40 after the prefix, but has 40 characters in all, so
    the code cuts its last 40 characters, the prefix among them, and puts
    a second prefix in front. *)
Lemma C8_counterexample :
  (String.length (strip_0x short_prefixed_word) < 40)%nat /\
  word_to_address utils.to_normalized_address (Some short_prefixed_word) =
    Some "0x0x11111111111111111111111111111111111111" /\
  word_to_address utils.to_normalized_address (Some short_prefixed_word) <>
    Some (utils.to_normalized_address short_prefixed_word).
Proof.
  split; [vm_compute; lia|]. split; [reflexivity|].
  vm_compute. discriminate.
Qed.

(** The second record of [batch_log]. *)
Lemma C9_record_invariant_witness :
  let r := transfer_model batch_log from_word to_word 3 (Some 7%N) in
  run (extract_model batch_log) = (Return (Some batch_records), []) /\
  In r batch_records /\
  normalized utils.to_normalized_address (EthTokenTransfer.from_address r) /\
  normalized utils.to_normalized_address (EthTokenTransfer.to_address r) /\
  EthTokenTransfer.token_address r =
    Some (utils.to_normalized_address (ReceiptLog.address batch_log)) /\
  EthTokenTransfer.value r <> None /\
  (EthTokenTransfer.token_id r <> None <->
   exists t0 rest,
     ReceiptLog.topics batch_log = Some (t0 :: rest) /\
     (casefold t0 = TRANSFER_ERC1155_EVENT_TOPIC \/
      casefold t0 = TRANSFER_BATCH_ERC1155_EVENT_TOPIC)).
Proof.
  intros r.
  assert (Hrun : run (extract_model batch_log) = (Return (Some batch_records), []))
    by reflexivity.
  assert (Hin : In r batch_records) by (right; left; reflexivity).
  split; [exact Hrun|]. split; [exact Hin|].
  exact (C9_record_invariant utils.to_normalized_address utils.hex_to_dec
           batch_log batch_records [] r Hrun Hin).
Defined.

(** ** Further properties of the splitter *)

Lemma length_append s t :
  String.length (s ++ t) = (String.length s + String.length t)%nat.
Proof. induction s as [|c s IH]; cbn; [reflexivity | now rewrite IH]. Qed.

Lemma drop_append s t : drop (String.length s) (s ++ t) = t.
Proof. induction s as [|c s IH]; cbn; [reflexivity | exact IH]. Qed.

Lemma take_append s t : take (String.length s) (s ++ t) = s.
Proof. induction s as [|c s IH]; cbn; [reflexivity | now rewrite IH]. Qed.

Lemma last_append pre body :
  last (String.length body) (pre ++ body) = body.
Proof.
  unfold last. rewrite length_append.
  replace (String.length pre + String.length body - String.length body)%nat
    with (String.length pre) by lia.
  apply drop_append.
Qed.

(** A string of one to 64 characters is its own single chunk. *)
Lemma chunk_string_single s :
  (1 <= String.length s <= 64)%nat -> utils.chunk_string s 64 = [s].
Proof.
  intros H. unfold utils.chunk_string, range_step.
  rewrite Nat.sub_0_r.
  replace ((String.length s + (64 - 1)) / 64)%nat with 1%nat
    by (apply Nat.div_unique with (r := (String.length s - 1)%nat); lia).
  cbn [seq map Nat.mul Nat.add]. unfold slice. cbn [drop].
  replace (64 - 0)%nat with 64%nat by reflexivity.
  rewrite take_all by lia. reflexivity.
Qed.

(** A full chunk in front of a string is the first chunk of the whole. *)
Lemma chunk_string_cons w s :
  String.length w = 64%nat ->
  utils.chunk_string (w ++ s) 64 = w :: utils.chunk_string s 64.
Proof.
  intros Hw. unfold utils.chunk_string, range_step.
  rewrite !Nat.sub_0_r, length_append, Hw.
  replace ((64 + String.length s + (64 - 1)) / 64)%nat
    with (S ((String.length s + (64 - 1)) / 64)).
  2:{ replace (64 + String.length s + (64 - 1))%nat
        with (1 * 64 + (String.length s + (64 - 1)))%nat by lia.
      rewrite Nat.div_add_l by lia. reflexivity. }
  cbn [seq map]. f_equal.
  - unfold slice. cbn [Nat.mul Nat.add drop].
    replace (64 - 0)%nat with 64%nat by reflexivity.
    rewrite <- Hw. apply take_append.
  - rewrite <- seq_shift, !map_map. apply map_ext. intros k.
    unfold slice.
    replace (0 + S k * 64 + 64 - (0 + S k * 64))%nat with 64%nat by lia.
    replace (0 + k * 64 + 64 - (0 + k * 64))%nat with 64%nat by lia.
    replace (0 + S k * 64)%nat with (String.length w + (0 + k * 64))%nat by lia.
    rewrite <- drop_drop, drop_append. reflexivity.
Qed.

Lemma chunk_string_words full tail :
  Forall (fun w => String.length w = 64%nat) full ->
  (1 <= String.length tail <= 64)%nat ->
  utils.chunk_string (join (full ++ [tail])) 64 = (full ++ [tail])%list.
Proof.
  intros Hfull Htail. induction Hfull as [|w full Hw _ IH]; cbn [app join].
  - rewrite append_nil_r. now apply chunk_string_single.
  - rewrite chunk_string_cons by exact Hw. now rewrite IH.
Qed.

Lemma chunk_string_full_words words :
  Forall (fun w => String.length w = 64%nat) words ->
  utils.chunk_string (join words) 64 = words.
Proof.
  intros H. induction H as [|w words Hw _ IH]; cbn [join]; [reflexivity|].
  rewrite chunk_string_cons by exact Hw. now rewrite IH.
Qed.

Lemma length_join_pos full tail :
  (1 <= String.length tail)%nat ->
  (1 <= String.length (join (full ++ [tail])))%nat.
Proof.
  intros H. induction full as [|w full IH]; cbn [app join].
  - rewrite append_nil_r. exact H.
  - rewrite length_append. lia.
Qed.

(** The words of a blob with a two-character prefix are the chunks of
    what follows the prefix. *)
Lemma split_to_words_prefixed p s :
  String.length p = 2%nat -> (1 <= String.length s)%nat ->
  split_to_words (Some (p ++ s)) =
  map (fun word => "0x" ++ word) (utils.chunk_string s 64).
Proof.
  intros Hp Hs. rewrite split_to_words_long by (rewrite length_append; lia).
  rewrite <- Hp, drop_append. reflexivity.
Qed.

(** A blob of at most one word after its two leading characters gives
    exactly one word. *)
Lemma split_to_words_one_word d :
  (2 < String.length d <= 66)%nat ->
  split_to_words (Some d) = ["0x" ++ drop 2 d].
Proof.
  intros H. rewrite split_to_words_long by lia.
  rewrite chunk_string_single by (rewrite length_drop; lia). reflexivity.
Qed.

(** X11.  Splitting is the inverse of joining: a blob made of two leading
    characters, any number of full 64-character words and a last word of
    1 to 64 characters splits into exactly those words, in order, each
    prefixed with 0x. *)
Theorem X11_split_to_words_of_joined_words p full tail :
  String.length p = 2%nat ->
  Forall (fun w => String.length w = 64%nat) full ->
  (1 <= String.length tail <= 64)%nat ->
  split_to_words (Some (p ++ join (full ++ [tail])))
  = map (fun word => "0x" ++ word) (full ++ [tail]).
Proof.
  intros Hp Hfull Htail.
  rewrite split_to_words_prefixed;
    [| exact Hp | apply length_join_pos; lia].
  now rewrite chunk_string_words.
Qed.

(** ** Every path of the extractor *)

Section Behaviour.

Variable to_normalized_address : string -> string.
Variable hex_to_dec : string -> N.

Local Abbreviation extract :=
  (extract_transfer_from_log to_normalized_address hex_to_dec).
Local Abbreviation transfer := (transfer_of to_normalized_address).
Local Abbreviation outcome_of := (extraction to_normalized_address hex_to_dec).

(** An iteration whose id word is missing raises. *)
Lemma batch_body_no_id receipt_log tape n i acc w :
  index tape (6 + 1 + i) = None ->
  batch_body to_normalized_address hex_to_dec receipt_log tape n i acc w
  = (Raise IndexError, w).
Proof.
  intros E. unfold batch_body. rewrite (getitem_None _ _ E). reflexivity.
Qed.

(** An iteration whose value word is missing raises. *)
Lemma batch_body_no_value receipt_log tape n i acc w wid :
  index tape (6 + 1 + i) = Some wid ->
  index tape (6 + n + 1 + i + 1) = None ->
  batch_body to_normalized_address hex_to_dec receipt_log tape n i acc w
  = (Raise IndexError, w).
Proof.
  intros E1 E2. unfold batch_body.
  rewrite (getitem_Some _ _ _ E1), (getitem_None _ _ E2). reflexivity.
Qed.

(** The loop raises as soon as one of its value words is missing. *)
Lemma batch_loop_raises receipt_log tape n w2 w3 :
  index tape 2 = Some w2 -> index tape 3 = Some w3 ->
  forall k a acc w,
    (exists i, (a <= i < a + k)%nat /\
               index tape (6 + n + 1 + N.of_nat i + 1) = None) ->
    for_each (map N.of_nat (seq a k))
      (batch_body to_normalized_address hex_to_dec receipt_log tape n) acc w
    = (Raise IndexError, w).
Proof.
  intros H2 H3. induction k as [|k IH]; intros a acc w (i & Hi & Hnone).
  - lia.
  - cbn [seq map for_each]. unfold bind at 1.
    destruct (index tape (6 + 1 + N.of_nat a)) as [wid|] eqn:Eid.
    2:{ now rewrite (batch_body_no_id _ _ _ _ _ _ Eid). }
    destruct (index tape (6 + n + 1 + N.of_nat a + 1)) as [wval|] eqn:Eval.
    2:{ now rewrite (batch_body_no_value _ _ _ _ _ _ _ Eid Eval). }
    rewrite (batch_body_ok _ _ _ _ _ _ _ _ _ _ _ _ Eid Eval H2 H3).
    apply IH. exists i. split; [|exact Hnone].
    assert (i <> a) by (intros ->; congruence). lia.
Qed.

(** The extractor always ends in one of the cases of [extraction]. *)
Lemma extraction_complete receipt_log o w :
  run (extract receipt_log) = (o, w) -> outcome_of receipt_log o w.
Proof.
  destruct (ReceiptLog.topics receipt_log) as [[|t0 rest]|] eqn:Ht.
  - unfold run, extract_transfer_from_log. rewrite Ht.
    intros H. injection H as <- <-. apply no_topics. now right.
  - destruct (String.eqb_spec (casefold t0) TRANSFER_EVENT_TOPIC) as [HA|HA];
      [|destruct (String.eqb_spec (casefold t0) TRANSFER_ERC1155_EVENT_TOPIC)
          as [HB|HB];
        [|destruct (String.eqb_spec (casefold t0)
                      TRANSFER_BATCH_ERC1155_EVENT_TOPIC) as [HC|HC]]].
    + rewrite (dispatch_transfer _ _ _ _ _ Ht HA).
      unfold run, _handle_transfer. fold (tape_of receipt_log (t0 :: rest)).
      destruct (Nat.eqb_spec (length (tape_of receipt_log (t0 :: rest))) 4)
        as [Hlen|Hlen]; cbn [negb].
      * assert (Hhd : exists r, tape_of receipt_log (t0 :: rest) = t0 :: r)
          by (eexists; reflexivity).
        destruct Hhd as [r Hr]. rewrite Hr in Hlen |- *.
        destruct r as [|w1 [|w2 [|w3 [|w4 r]]]]; try discriminate Hlen.
        intros H. injection H as <- <-.
        now apply (transfer_decoded _ _ _ t0 rest w1 w2 w3).
      * intros H. cbn in H. injection H as <- <-.
        now apply (transfer_rejected _ _ _ t0 rest).
    + rewrite (dispatch_erc1155 _ _ _ _ _ Ht HB).
      unfold run, _handle_erc1155_transfer.
      fold (tape_of receipt_log (t0 :: rest)).
      destruct (Nat.eqb_spec (length (tape_of receipt_log (t0 :: rest))) 6)
        as [Hlen|Hlen];
        destruct (Nat.eqb_spec (length (t0 :: rest)) 4) as [Htop|Htop];
        cbn [negb orb];
        try (intros H; cbn in H; injection H as <- <-;
             apply (single_rejected _ _ _ t0 rest); try assumption;
             intros [? ?]; contradiction).
      destruct rest as [|w1 [|w2 [|w3 [|w4 r]]]]; try discriminate Htop.
      unfold tape_of in *. cbn [app] in *.
      destruct (split_to_words (ReceiptLog.data receipt_log))
        as [|w4 [|w5 [|w6 r]]] eqn:Es; try discriminate Hlen.
      intros H. injection H as <- <-.
      apply (single_decoded _ _ _ t0 w1 w2 w3 w4 w5); try assumption.
      unfold tape_of. now rewrite Es.
    + rewrite (dispatch_batch _ _ _ _ _ Ht HC). unfold run.
      destruct (Nat.eq_dec (length (t0 :: rest)) 4) as [Htop|Htop].
      2:{ unfold _handle_erc1155_batch_transfer.
          apply Nat.eqb_neq in Htop as Hb. rewrite Hb. cbn [negb].
          intros H. cbn in H. injection H as <- <-.
          now apply (batch_rejected_topics _ _ _ t0 rest). }
      destruct rest as [|t1 [|t2 [|t3 [|t4 r]]]]; try discriminate Htop.
      set (tape := tape_of receipt_log [t0; t1; t2; t3]).
      destruct (index tape 6) as [w6|] eqn:E6.
      2:{ unfold _handle_erc1155_batch_transfer.
          fold (tape_of receipt_log [t0; t1; t2; t3]). fold tape.
          cbn [length Nat.eqb negb]. rewrite (getitem_None _ _ E6).
          intros H. injection H as <- <-.
          now apply (batch_no_ids_length _ _ _ t0 t1 t2 t3). }
      destruct (index tape (6 + hex_to_dec w6 + 1)) as [wn|] eqn:En.
      2:{ unfold _handle_erc1155_batch_transfer.
          fold (tape_of receipt_log [t0; t1; t2; t3]). fold tape.
          cbn [length Nat.eqb negb]. rewrite (getitem_Some _ _ _ E6).
          unfold bind at 1. unfold ret at 1. rewrite (getitem_None _ _ En).
          intros H. injection H as <- <-.
          now apply (batch_no_values_length _ _ _ t0 t1 t2 t3 w6). }
      rewrite (batch_four_topics _ _ _ _ _ _ _ _ _ E6 En). fold tape.
      destruct (N.eqb_spec (hex_to_dec w6) (hex_to_dec wn)) as [Heq|Hneq];
        cbn [negb].
      2:{ intros H. injection H as <- <-.
          now apply (batch_rejected_lengths _ _ _ t0 t1 t2 t3 w6 wn). }
      pose proof (index_Some_lt _ _ _ En) as Hlt.
      destruct (N.eq_dec (hex_to_dec w6) 0) as [Hz|Hnz];
        [|destruct (N.le_gt_cases (2 * hex_to_dec w6 + 8)
                      (N.of_nat (length tape))) as [Hle|Hgt]].
      * destruct (batch_loop_ok to_normalized_address hex_to_dec receipt_log
                    tape (hex_to_dec w6) t2 t3 eq_refl eq_refl
                    (N.to_nat (hex_to_dec w6)) 0%nat [] [])
          as (recs & Hrun & Hlen & Hnth).
        { intros i Hi. lia. }
        unfold bind, range. rewrite Hrun. cbn [app].
        intros H. injection H as <- <-.
        apply (batch_decoded _ _ _ t0 t1 t2 t3 w6 wn recs);
          try assumption; [now left|].
        intros i Hi. lia.
      * destruct (batch_loop_ok to_normalized_address hex_to_dec receipt_log
                    tape (hex_to_dec w6) t2 t3 eq_refl eq_refl
                    (N.to_nat (hex_to_dec w6)) 0%nat [] [])
          as (recs & Hrun & Hlen & Hnth).
        { intros i Hi. split; intros Habs; apply index_None_ge in Habs; lia. }
        unfold bind, range. rewrite Hrun. cbn [app].
        intros H. injection H as <- <-.
        apply (batch_decoded _ _ _ t0 t1 t2 t3 w6 wn recs);
          try assumption; [now right|].
        intros i Hi.
        destruct (Hnth (N.to_nat i) ltac:(lia)) as (wid & wval & E1 & E2 & E3).
        cbn [Nat.add] in E1, E2. rewrite N2Nat.id in E1, E2.
        exists wid, wval. repeat split; assumption.
      * unfold bind, range.
        rewrite (batch_loop_raises receipt_log tape (hex_to_dec w6) t2 t3
                   eq_refl eq_refl).
        -- intros H. injection H as <- <-.
           apply (batch_truncated _ _ _ t0 t1 t2 t3 w6 wn); try assumption. lia.
        -- exists (length tape - 8 - N.to_nat (hex_to_dec w6))%nat.
           split; [lia|]. apply index_None_ge. lia.
    + rewrite (dispatch_unknown _ _ _ _ _ Ht HA HB HC). unfold run, ret.
      intros H. injection H as <- <-.
      now apply (unknown_signature _ _ _ t0 rest).
  - unfold run, extract_transfer_from_log. rewrite Ht.
    intros H. injection H as <- <-. apply no_topics. now left.
Qed.

(** *** Raises *)

(** X1.  [IndexError], the exception of a read past the end of the
    tape, comes from the batch decoder only.  When the extractor raises
    [IndexError], the log carries the TransferBatch signature and exactly
    four topics, no warning was emitted, and a word the batch decoder
    indexes is missing: the ids length at index 6, or the values length
    at index [6 + N + 1] for the decoded [N], or, the two decoded lengths
    being equal and positive, one of the [2 * N + 8] words of the layout.
    A Transfer or TransferSingle log never raises [IndexError].  What a
    collaborator raises on a word it cannot decode is no [IndexError] and
    lies outside this statement. *)
Theorem X1_raises_only_in_batch receipt_log w :
  run (extract receipt_log) = (Raise IndexError, w) ->
  w = [] /\
  exists t0 t1 t2 t3,
    ReceiptLog.topics receipt_log = Some [t0; t1; t2; t3] /\
    casefold t0 = TRANSFER_BATCH_ERC1155_EVENT_TOPIC /\
    let tape := tape_of receipt_log [t0; t1; t2; t3] in
    (index tape 6 = None \/
     exists w6,
       index tape 6 = Some w6 /\
       (index tape (6 + hex_to_dec w6 + 1) = None \/
        exists wn,
          index tape (6 + hex_to_dec w6 + 1) = Some wn /\
          hex_to_dec w6 = hex_to_dec wn /\
          (0 < hex_to_dec w6)%N /\
          (N.of_nat (length tape) < 2 * hex_to_dec w6 + 8)%N)).
Proof.
  intros H. apply extraction_complete in H.
  inversion H; subst; (split; [reflexivity|]);
    exists t0, t1, t2, t3; (split; [assumption|]); (split; [assumption|]).
  - now left.
  - right. exists w6. split; [assumption | now left].
  - right. exists w6. split; [assumption|]. right. exists wn.
    repeat split; assumption.
Qed.

(** X2.  A log with the TransferBatch signature and exactly four topics
    whose tape lacks the ids length (index 6) or the values length (index
    [6 + N + 1], [N] read from index 6, however large) makes the
    extractor raise [IndexError], with no warning. *)
Theorem X2_batch_missing_length_word_raises receipt_log t0 t1 t2 t3 :
  ReceiptLog.topics receipt_log = Some [t0; t1; t2; t3] ->
  casefold t0 = TRANSFER_BATCH_ERC1155_EVENT_TOPIC ->
  let tape := tape_of receipt_log [t0; t1; t2; t3] in
  index tape 6 = None \/
  (exists w6, index tape 6 = Some w6 /\
              index tape (6 + hex_to_dec w6 + 1) = None) ->
  run (extract receipt_log) = (Raise IndexError, []).
Proof.
  intros Ht H0 tape Hmiss.
  rewrite (dispatch_batch _ _ _ _ _ Ht H0).
  unfold run, _handle_erc1155_batch_transfer.
  fold (tape_of receipt_log [t0; t1; t2; t3]). fold tape.
  cbn [length Nat.eqb negb].
  destruct Hmiss as [E6 | (w6 & E6 & En)].
  - now rewrite (getitem_None _ _ E6).
  - rewrite (getitem_Some _ _ _ E6). unfold bind at 1. unfold ret at 1.
    now rewrite (getitem_None _ _ En).
Qed.

(** X3.  For a batch log with four topics and equal lengths [N] at
    indices 6 and [6 + N + 1], the tape length decides: with [N] positive
    and fewer than [2 * N + 8] words the extractor raises [IndexError];
    with [N = 0] or at least [2 * N + 8] words it returns [N] records and
    no warning. *)
Theorem X3_batch_values_bound receipt_log t0 t1 t2 t3 w6 wn :
  ReceiptLog.topics receipt_log = Some [t0; t1; t2; t3] ->
  casefold t0 = TRANSFER_BATCH_ERC1155_EVENT_TOPIC ->
  let tape := tape_of receipt_log [t0; t1; t2; t3] in
  index tape 6 = Some w6 ->
  let n := hex_to_dec w6 in
  index tape (6 + n + 1) = Some wn ->
  hex_to_dec wn = n ->
  ((0 < n)%N /\ (N.of_nat (length tape) < 2 * n + 8)%N ->
     run (extract receipt_log) = (Raise IndexError, [])) /\
  (n = 0%N \/ (2 * n + 8 <= N.of_nat (length tape))%N ->
     exists records,
       run (extract receipt_log) = (Return (Some records), []) /\
       length records = N.to_nat n).
Proof.
  intros Ht H0 tape E6 n En Heq.
  rewrite (dispatch_batch _ _ _ _ _ Ht H0). unfold run.
  rewrite (batch_four_topics to_normalized_address hex_to_dec receipt_log
             t0 t1 t2 t3 w6 wn E6 En).
  fold tape. fold n. rewrite Heq, N.eqb_refl. cbn [negb].
  pose proof (index_Some_lt _ _ _ En) as Hlt.
  split.
  - intros [Hpos Hshort]. unfold bind, range.
    rewrite (batch_loop_raises receipt_log tape n t2 t3 eq_refl eq_refl);
      [reflexivity|].
    exists (length tape - 8 - N.to_nat n)%nat.
    split; [lia|]. apply index_None_ge. lia.
  - intros Hlong.
    destruct (batch_loop_ok to_normalized_address hex_to_dec receipt_log
                tape n t2 t3 eq_refl eq_refl (N.to_nat n) 0%nat [] [])
      as (recs & Hrun & Hlen & _).
    { intros i Hi. split; intros Habs; apply index_None_ge in Habs; lia. }
    exists recs. unfold bind, range. rewrite Hrun. split; [reflexivity | exact Hlen].
Qed.

(** X4.  A log with the TransferBatch signature and a number of topics
    other than four is rejected whatever its data: the result is [None]
    with one warning, which names the log (and speaks of 6 topics and
    data parts); nothing is read from the tape, so nothing raises. *)
Theorem X4_batch_wrong_topic_count receipt_log t0 rest :
  ReceiptLog.topics receipt_log = Some (t0 :: rest) ->
  casefold t0 = TRANSFER_BATCH_ERC1155_EVENT_TOPIC ->
  length (t0 :: rest) <> 4%nat ->
  run (extract receipt_log) = (Return None, [warn_erc1155 receipt_log]) /\
  identifies receipt_log (warn_erc1155 receipt_log).
Proof.
  intros Ht H0 Htop.
  rewrite (dispatch_batch _ _ _ _ _ Ht H0).
  unfold run, _handle_erc1155_batch_transfer.
  apply Nat.eqb_neq in Htop. rewrite Htop. cbn [negb].
  split; [reflexivity | apply warn_erc1155_identifies].
Qed.

(** *** Warnings and records *)

(** X5.  A call emits at most one warning.  It emits one only together
    with the result [None], and that warning names the log; a call that
    returns records, or raises, emits none. *)
Theorem X5_warning_discipline receipt_log o w :
  run (extract receipt_log) = (o, w) ->
  w = [] \/
  (o = Return None /\ exists msg, w = [msg] /\ identifies receipt_log msg).
Proof.
  intros H. apply extraction_complete in H.
  inversion H; subst; try (left; reflexivity); right;
    (split; [reflexivity|]); eexists; (split; [reflexivity|]).
  - apply warn_transfer_identifies.
  - apply warn_erc1155_identifies.
  - apply warn_erc1155_identifies.
  - apply warn_batch_counts_identifies.
Qed.

(** X6.  Records come out of well-shaped logs only: a Transfer log whose
    tape has exactly 4 words, a TransferSingle log with 4 topics and a
    tape of exactly 6 words, both giving exactly one record, or a
    TransferBatch log with 4 topics whose two length words exist and are
    equal, giving as many records as the length says. *)
Theorem X6_records_only_from_well_shaped_logs receipt_log records w :
  run (extract receipt_log) = (Return (Some records), w) ->
  exists t0 rest,
    ReceiptLog.topics receipt_log = Some (t0 :: rest) /\
    let tape := tape_of receipt_log (t0 :: rest) in
    ((casefold t0 = TRANSFER_EVENT_TOPIC /\
      length tape = 4%nat /\ length records = 1%nat) \/
     (casefold t0 = TRANSFER_ERC1155_EVENT_TOPIC /\
      length (t0 :: rest) = 4%nat /\ length tape = 6%nat /\
      length records = 1%nat) \/
     (casefold t0 = TRANSFER_BATCH_ERC1155_EVENT_TOPIC /\
      length (t0 :: rest) = 4%nat /\
      exists w6 wn,
        index tape 6 = Some w6 /\
        index tape (6 + hex_to_dec w6 + 1) = Some wn /\
        hex_to_dec w6 = hex_to_dec wn /\
        length records = N.to_nat (hex_to_dec w6))).
Proof.
  intros H. apply extraction_complete in H.
  inversion H; subst.
  - exists t0, rest. split; [assumption|]. left.
    match goal with E : tape_of _ _ = _ |- _ => rewrite E end.
    repeat split; assumption.
  - exists t0, [w1; w2; w3]. split; [assumption|]. right. left.
    match goal with E : tape_of _ _ = _ |- _ => rewrite E end.
    repeat split; assumption.
  - exists t0, [t1; t2; t3]. split; [assumption|]. right. right.
    split; [assumption|]. split; [reflexivity|].
    exists w6, wn. repeat split; assumption.
Qed.

(** The records of one call are all built from the same two address
    words. *)
Lemma records_shape receipt_log records w :
  run (extract receipt_log) = (Return (Some records), w) ->
  exists w_from w_to,
    forall r, In r records ->
      exists v tid, r = transfer receipt_log w_from w_to v tid.
Proof.
  intros H. apply extraction_complete in H.
  inversion H; subst.
  - exists w1, w2. intros r [<-|[]]. eexists _, _. reflexivity.
  - exists w2, w3. intros r [<-|[]]. eexists _, _. reflexivity.
  - exists t2, t3. intros r Hin.
    apply In_nth_error in Hin. destruct Hin as [k Hk].
    assert (Hlt : (k < length records)%nat)
      by (apply nth_error_Some; congruence).
    match goal with
    | Hnth : forall i, (i < _)%N -> _ |- _ =>
        destruct (Hnth (N.of_nat k) ltac:(lia)) as (wid & wval & _ & _ & E)
    end.
    rewrite Nat2N.id, Hk in E. injection E as ->.
    eexists _, _. reflexivity.
Qed.

(** X7.  Every record the extractor returns carries the transaction
    hash, the log index and the block number of its log. *)
Theorem X7_records_copy_identifiers receipt_log records w r :
  run (extract receipt_log) = (Return (Some records), w) ->
  In r records ->
  EthTokenTransfer.transaction_hash r
    = Some (ReceiptLog.transaction_hash receipt_log) /\
  EthTokenTransfer.log_index r = Some (ReceiptLog.log_index receipt_log) /\
  EthTokenTransfer.block_number r = Some (ReceiptLog.block_number receipt_log).
Proof.
  intros H Hin. destruct (records_shape _ _ _ H) as (wf & wt & Hall).
  destruct (Hall r Hin) as (v & tid & ->). repeat split.
Qed.

(** X8.  The records of one call differ in token id and value at most:
    any two of them agree on the three addresses and the three
    identifiers. *)
Theorem X8_records_share_addresses receipt_log records w r1 r2 :
  run (extract receipt_log) = (Return (Some records), w) ->
  In r1 records -> In r2 records ->
  EthTokenTransfer.from_address r1 = EthTokenTransfer.from_address r2 /\
  EthTokenTransfer.to_address r1 = EthTokenTransfer.to_address r2 /\
  EthTokenTransfer.token_address r1 = EthTokenTransfer.token_address r2 /\
  EthTokenTransfer.transaction_hash r1 = EthTokenTransfer.transaction_hash r2 /\
  EthTokenTransfer.log_index r1 = EthTokenTransfer.log_index r2 /\
  EthTokenTransfer.block_number r1 = EthTokenTransfer.block_number r2.
Proof.
  intros H Hin1 Hin2. destruct (records_shape _ _ _ H) as (wf & wt & Hall).
  destruct (Hall r1 Hin1) as (v1 & tid1 & ->).
  destruct (Hall r2 Hin2) as (v2 & tid2 & ->). repeat split.
Qed.

(** *** The address cut *)

(** X10.  The address cut sees the last 40 characters of a word only:
    whatever precedes them, prefix and padding alike, is dropped without
    being looked at, and 0x is put in front before normalizing. *)
Theorem X10_word_to_address_last_40 pre body :
  String.length body = 40%nat ->
  word_to_address to_normalized_address (Some (pre ++ body))
  = Some (to_normalized_address ("0x" ++ body)).
Proof.
  intros Hb. unfold word_to_address. rewrite length_append, Hb.
  destruct (Nat.leb_spec 40 (String.length pre + 40)); [|lia].
  rewrite <- Hb at 1. now rewrite last_append.
Qed.

(** *** The layouts of the three events *)

(** X12.  An ERC20 Transfer, with from and to as topics and the amount as
    the only word of the data, decodes to one record whose value is the
    data word and whose token id is absent; when the data starts with 0x
    the value is decoded from the data itself. *)
Theorem X12_transfer_amount_in_data receipt_log t0 w_from w_to d :
  ReceiptLog.topics receipt_log = Some [t0; w_from; w_to] ->
  casefold t0 = TRANSFER_EVENT_TOPIC ->
  ReceiptLog.data receipt_log = Some d ->
  (2 < String.length d <= 66)%nat ->
  run (extract receipt_log) =
    (Return (Some [transfer receipt_log w_from w_to
                     (hex_to_dec ("0x" ++ drop 2 d)) None]), []) /\
  (starts_with_0x d = true -> "0x" ++ drop 2 d = d).
Proof.
  intros Ht H0 Hd Hlen. split.
  - rewrite (dispatch_transfer _ _ _ _ _ Ht H0).
    unfold run, _handle_transfer.
    rewrite Hd, (split_to_words_one_word _ Hlen). reflexivity.
  - intros Hp. destruct (starts_with_0x_inv _ Hp) as [r ->]. reflexivity.
Qed.

(** X13.  An ERC721 Transfer, with from, to and the token id as topics
    and no data (null, empty or the bare 0x), decodes to one record whose
    value is the token id of the fourth topic and whose token id is
    absent. *)
Theorem X13_transfer_token_in_topics receipt_log t0 w_from w_to w_token :
  ReceiptLog.topics receipt_log = Some [t0; w_from; w_to; w_token] ->
  casefold t0 = TRANSFER_EVENT_TOPIC ->
  ReceiptLog.data receipt_log = None \/
  (exists d, ReceiptLog.data receipt_log = Some d /\
             (String.length d <= 2)%nat) ->
  run (extract receipt_log) =
    (Return (Some [transfer receipt_log w_from w_to (hex_to_dec w_token) None]),
     []).
Proof.
  intros Ht H0 Hd.
  rewrite (dispatch_transfer _ _ _ _ _ Ht H0).
  unfold run, _handle_transfer.
  destruct Hd as [Hd | (d & Hd & Hlen)]; rewrite Hd.
  - reflexivity.
  - rewrite (split_to_words_short _ Hlen). reflexivity.
Qed.

(** X14.  A TransferSingle, with operator, from and to as topics and the
    id and the value as the two words of the data, decodes to one record
    with that id and that value. *)
Theorem X14_transfer_single_layout receipt_log t0 w_operator w_from w_to
    p w_id w_value :
  ReceiptLog.topics receipt_log = Some [t0; w_operator; w_from; w_to] ->
  casefold t0 = TRANSFER_ERC1155_EVENT_TOPIC ->
  ReceiptLog.data receipt_log = Some (p ++ w_id ++ w_value) ->
  String.length p = 2%nat ->
  String.length w_id = 64%nat ->
  (1 <= String.length w_value <= 64)%nat ->
  run (extract receipt_log) =
    (Return (Some [transfer receipt_log w_from w_to
                     (hex_to_dec ("0x" ++ w_value))
                     (Some (hex_to_dec ("0x" ++ w_id)))]), []).
Proof.
  intros Ht H0 Hd Hp Hid Hval.
  rewrite (dispatch_erc1155 _ _ _ _ _ Ht H0).
  unfold run, _handle_erc1155_transfer. rewrite Hd.
  rewrite split_to_words_prefixed by (rewrite ?length_append; lia).
  rewrite chunk_string_cons by exact Hid.
  rewrite chunk_string_single by exact Hval.
  reflexivity.
Qed.

(** The loop over a tape that holds the words of [ids] from index 7 on
    and the words of [values] from index [6 + n + 2] on. *)
Lemma batch_loop_on_layout receipt_log tape n w2 w3 :
  index tape 2 = Some w2 -> index tape 3 = Some w3 ->
  forall ids values a acc w,
    length ids = length values ->
    (forall j wid, nth_error ids j = Some wid ->
       index tape (6 + 1 + N.of_nat (a + j)) = Some wid) ->
    (forall j wval, nth_error values j = Some wval ->
       index tape (6 + n + 1 + N.of_nat (a + j) + 1) = Some wval) ->
    for_each (map N.of_nat (seq a (length ids)))
      (batch_body to_normalized_address hex_to_dec receipt_log tape n) acc w
    = (Return
         (acc ++ map (fun iv => transfer receipt_log w2 w3
                                  (hex_to_dec (snd iv))
                                  (Some (hex_to_dec (fst iv))))
                     (combine ids values))%list, w).
Proof.
  intros H2 H3. induction ids as [|wid ids IH];
    intros values a acc w Hlen Hids Hvals.
  - cbn. now rewrite app_nil_r.
  - destruct values as [|wval values]; [discriminate Hlen|].
    cbn [length seq map for_each combine]. unfold bind at 1.
    pose proof (Hids 0%nat wid eq_refl) as Eid.
    pose proof (Hvals 0%nat wval eq_refl) as Eval.
    rewrite Nat.add_0_r in Eid, Eval.
    rewrite (batch_body_ok _ _ _ _ _ _ _ _ _ _ _ _ Eid Eval H2 H3).
    rewrite (IH values (S a)).
    + cbn [fst snd map]. now rewrite <- app_assoc.
    + now injection Hlen.
    + intros j x Hj. replace (S a + j)%nat with (a + S j)%nat by lia.
      now apply Hids.
    + intros j x Hj. replace (S a + j)%nat with (a + S j)%nat by lia.
      now apply Hvals.
Qed.

(** X15.  The standard encoding of a TransferBatch decodes to its pairs:
    with operator, from and to as topics and, as data, two offset words,
    the length, the ids, the length again and the values, all words of 64
    characters and both lengths decoding to the number of ids, the
    extractor returns one record per pair (id, value), in order, and no
    warning. *)
Theorem X15_transfer_batch_layout receipt_log t0 w_operator w_from w_to
    p offset_ids offset_values n_ids ids n_values values :
  ReceiptLog.topics receipt_log = Some [t0; w_operator; w_from; w_to] ->
  casefold t0 = TRANSFER_BATCH_ERC1155_EVENT_TOPIC ->
  ReceiptLog.data receipt_log =
    Some (p ++ join ([offset_ids; offset_values; n_ids] ++ ids
                     ++ [n_values] ++ values)) ->
  String.length p = 2%nat ->
  Forall (fun w => String.length w = 64%nat)
         ([offset_ids; offset_values; n_ids] ++ ids ++ [n_values] ++ values) ->
  hex_to_dec ("0x" ++ n_ids) = N.of_nat (length ids) ->
  hex_to_dec ("0x" ++ n_values) = N.of_nat (length ids) ->
  length values = length ids ->
  run (extract receipt_log) =
    (Return (Some (map (fun iv => transfer receipt_log w_from w_to
                                   (hex_to_dec ("0x" ++ snd iv))
                                   (Some (hex_to_dec ("0x" ++ fst iv))))
                       (combine ids values))), []).
Proof.
  intros Ht H0 Hd Hp Hall Hn Hm Hlen.
  set (pre := fun word : string => "0x" ++ word).
  change (hex_to_dec (pre n_ids) = N.of_nat (length ids)) in Hn.
  change (hex_to_dec (pre n_values) = N.of_nat (length ids)) in Hm.
  assert (Htape : tape_of receipt_log [t0; w_operator; w_from; w_to] =
                  ([t0; w_operator; w_from; w_to; pre offset_ids;
                    pre offset_values; pre n_ids]
                   ++ map pre ids ++ pre n_values :: map pre values)%list).
  { unfold tape_of. rewrite Hd.
    rewrite split_to_words_prefixed.
    - rewrite (chunk_string_full_words _ Hall).
      cbn [app map]. now rewrite map_app.
    - exact Hp.
    - cbn [app join]. rewrite length_append.
      inversion Hall; subst. lia. }
  assert (E6 : index (tape_of receipt_log [t0; w_operator; w_from; w_to]) 6
               = Some (pre n_ids)) by (rewrite Htape; reflexivity).
  assert (Hids : forall j wid, nth_error (map pre ids) j = Some wid ->
            index (tape_of receipt_log [t0; w_operator; w_from; w_to])
                  (6 + 1 + N.of_nat (0 + j)) = Some wid).
  { intros j wid Hj. rewrite Htape, index_nth_error.
    replace (N.to_nat (6 + 1 + N.of_nat (0 + j))) with (7 + j)%nat by lia.
    cbn [app Nat.add nth_error].
    rewrite nth_error_app1; [exact Hj|].
    apply nth_error_Some. congruence. }
  assert (Hvals : forall j wval, nth_error (map pre values) j = Some wval ->
            index (tape_of receipt_log [t0; w_operator; w_from; w_to])
                  (6 + N.of_nat (length ids) + 1 + N.of_nat (0 + j) + 1)
            = Some wval).
  { intros j wval Hj. rewrite Htape, index_nth_error.
    replace (N.to_nat (6 + N.of_nat (length ids) + 1 + N.of_nat (0 + j) + 1))
      with (7 + (length (map pre ids) + S j))%nat
      by (rewrite length_map; lia).
    cbn [app Nat.add nth_error].
    rewrite nth_error_app2 by lia.
    replace (length (map pre ids) + S j - length (map pre ids))%nat
      with (S j) by lia.
    exact Hj. }
  assert (En : index (tape_of receipt_log [t0; w_operator; w_from; w_to])
                 (6 + hex_to_dec (pre n_ids) + 1) = Some (pre n_values)).
  { rewrite Hn, Htape, index_nth_error.
    replace (N.to_nat (6 + N.of_nat (length ids) + 1))
      with (7 + (length (map pre ids) + 0))%nat
      by (rewrite length_map; lia).
    cbn [app Nat.add nth_error].
    rewrite nth_error_app2 by lia.
    replace (length (map pre ids) + 0 - length (map pre ids))%nat
      with 0%nat by lia.
    reflexivity. }
  rewrite (dispatch_batch _ _ _ _ _ Ht H0). unfold run.
  rewrite (batch_four_topics to_normalized_address hex_to_dec receipt_log
             t0 w_operator w_from w_to (pre n_ids) (pre n_values) E6 En).
  rewrite !Hn, Hm, N.eqb_refl. cbn [negb].
  unfold bind, range. rewrite Nat2N.id.
  replace (seq 0 (length ids)) with (seq 0 (length (map pre ids)))
    by (now rewrite length_map).
  rewrite (batch_loop_on_layout receipt_log
             (tape_of receipt_log [t0; w_operator; w_from; w_to])
             (N.of_nat (length ids)) w_from w_to eq_refl eq_refl
             (map pre ids) (map pre values) 0%nat [] []).
  - cbn [app]. unfold ret. do 3 f_equal.
    clear. revert values. induction ids as [|x ids IH]; intros [|y values];
      cbn; try reflexivity.
    now rewrite IH.
  - now rewrite !length_map.
  - exact Hids.
  - exact Hvals.
Qed.

(** *** The spelling of the first topic *)

Lemma bind_congr {A B : Type} (c1 c2 : M A) (k1 k2 : A -> M B) w :
  c1 w = c2 w ->
  (forall a w', k1 a w' = k2 a w') ->
  bind c1 k1 w = bind c2 k2 w.
Proof.
  intros Hc Hk. unfold bind. rewrite Hc.
  destruct (c2 w) as [[a|e] w']; [apply Hk | reflexivity].
Qed.

Lemma for_each_congr {A S : Type} (body1 body2 : A -> S -> M S) l :
  (forall x s w, body1 x s w = body2 x s w) ->
  forall s w, for_each l body1 s w = for_each l body2 s w.
Proof.
  intros Hb. induction l as [|x l IH]; intros s w; cbn [for_each];
    [reflexivity|].
  apply bind_congr; [apply Hb | exact IH].
Qed.

(** A read past the head does not see the head. *)
Lemma getitem_past_head {A : Type} (x y : A) l i w :
  i <> 0%N -> getitem (x :: l) i w = getitem (y :: l) i w.
Proof.
  intros Hi. unfold getitem. cbn [index].
  apply N.eqb_neq in Hi. now rewrite Hi.
Qed.

Lemma batch_body_past_head receipt_log t t' rest n i acc w :
  batch_body to_normalized_address hex_to_dec
    (with_topics receipt_log (Some (t :: rest)))
    (tape_of (with_topics receipt_log (Some (t :: rest))) (t :: rest)) n i acc w
  = batch_body to_normalized_address hex_to_dec
      (with_topics receipt_log (Some (t' :: rest)))
      (tape_of (with_topics receipt_log (Some (t' :: rest))) (t' :: rest))
      n i acc w.
Proof.
  unfold batch_body, tape_of. cbn [with_topics ReceiptLog.data app].
  apply bind_congr; [apply getitem_past_head; lia|]. intros wid w1.
  apply bind_congr; [apply getitem_past_head; lia|]. intros wval w2.
  reflexivity.
Qed.

(** X9.  The first topic counts through its case-folded form only: two
    logs that differ in nothing but the spelling of the first topic, the
    two spellings folding to the same string, give the same outcome, the
    same records and the same warnings. *)
Theorem X9_first_topic_spelling receipt_log t t' rest :
  casefold t = casefold t' ->
  run (extract (with_topics receipt_log (Some (t :: rest))))
  = run (extract (with_topics receipt_log (Some (t' :: rest)))).
Proof.
  intros Hfold.
  set (l := with_topics receipt_log (Some (t :: rest))).
  set (l' := with_topics receipt_log (Some (t' :: rest))).
  assert (Ht : ReceiptLog.topics l = Some (t :: rest)) by reflexivity.
  assert (Ht' : ReceiptLog.topics l' = Some (t' :: rest)) by reflexivity.
  destruct (String.eqb_spec (casefold t) TRANSFER_EVENT_TOPIC) as [HA|HA];
    [|destruct (String.eqb_spec (casefold t) TRANSFER_ERC1155_EVENT_TOPIC)
        as [HB|HB];
      [|destruct (String.eqb_spec (casefold t)
                    TRANSFER_BATCH_ERC1155_EVENT_TOPIC) as [HC|HC]]].
  { rewrite (dispatch_transfer _ _ _ _ _ Ht HA).
    rewrite Hfold in HA. rewrite (dispatch_transfer _ _ _ _ _ Ht' HA).
    reflexivity. }
  { rewrite (dispatch_erc1155 _ _ _ _ _ Ht HB).
    rewrite Hfold in HB. rewrite (dispatch_erc1155 _ _ _ _ _ Ht' HB).
    reflexivity. }
  2:{ rewrite (dispatch_unknown _ _ _ _ _ Ht HA HB HC).
      rewrite Hfold in HA, HB, HC.
      now rewrite (dispatch_unknown _ _ _ _ _ Ht' HA HB HC). }
  rewrite (dispatch_batch _ _ _ _ _ Ht HC).
  rewrite Hfold in HC. rewrite (dispatch_batch _ _ _ _ _ Ht' HC).
  subst l l'. unfold run.
  unfold _handle_erc1155_batch_transfer.
  fold (tape_of (with_topics receipt_log (Some (t :: rest))) (t :: rest)).
  fold (tape_of (with_topics receipt_log (Some (t' :: rest))) (t' :: rest)).
  cbn [length].
  destruct (negb (S (length rest) =? 4)%nat); [reflexivity|].
  apply bind_congr.
  { unfold tape_of. cbn [app]. apply getitem_past_head. discriminate. }
  intros w6 w1. apply bind_congr.
  { unfold tape_of. cbn [app]. apply getitem_past_head. lia. }
  intros wn w2.
  destruct (negb (hex_to_dec w6 =? hex_to_dec wn)%N); [reflexivity|].
  apply bind_congr; [|reflexivity].
  apply for_each_congr. intros i acc w. apply batch_body_past_head.
Qed.

End Behaviour.

(** ** The further properties on the sample logs *)

(** [batch_no_data_log] raises [IndexError]: it is a batch log of four
    topics. *)
Lemma X1_raises_only_in_batch_witness :
  run (extract_model batch_no_data_log) = (Raise IndexError, []) /\
  exists t0 t1 t2 t3,
    ReceiptLog.topics batch_no_data_log = Some [t0; t1; t2; t3] /\
    casefold t0 = TRANSFER_BATCH_ERC1155_EVENT_TOPIC.
Proof.
  assert (H : run (extract_model batch_no_data_log) = (Raise IndexError, []))
    by reflexivity.
  split; [exact H|].
  destruct (X1_raises_only_in_batch utils.to_normalized_address
              utils.hex_to_dec batch_no_data_log [] H)
    as (_ & t0 & t1 & t2 & t3 & Ht & H0 & _).
  exists t0, t1, t2, t3. split; assumption.
Defined.

(** [batch_huge_length_log]: the ids length 2^255 points far past the
    tape. *)
Lemma X2_batch_missing_length_word_raises_witness :
  let topics := [TRANSFER_BATCH_ERC1155_EVENT_TOPIC; operator_word; from_word;
                 to_word] in
  let tape := tape_of batch_huge_length_log topics in
  ReceiptLog.topics batch_huge_length_log = Some topics /\
  casefold TRANSFER_BATCH_ERC1155_EVENT_TOPIC = TRANSFER_BATCH_ERC1155_EVENT_TOPIC /\
  option_map utils.hex_to_dec (index tape 6) = Some (2 ^ 255)%N /\
  index tape (6 + 2 ^ 255 + 1) = None /\
  run (extract_model batch_huge_length_log) = (Raise IndexError, []).
Proof.
  intros topics tape.
  do 4 (split; [reflexivity|]).
  apply (X2_batch_missing_length_word_raises utils.to_normalized_address
           utils.hex_to_dec batch_huge_length_log
           TRANSFER_BATCH_ERC1155_EVENT_TOPIC operator_word from_word to_word
           eq_refl eq_refl).
  right. eexists. split; reflexivity.
Defined.

(** [batch_truncated_log] lacks its last value; [batch_log] is whole. *)
Lemma X3_batch_values_bound_witness :
  let topics := [TRANSFER_BATCH_ERC1155_EVENT_TOPIC; operator_word; from_word;
                 to_word] in
  (length (tape_of batch_truncated_log topics) = 11%nat /\
   option_map utils.hex_to_dec (index (tape_of batch_truncated_log topics) 6)
     = Some 2%N /\
   option_map utils.hex_to_dec (index (tape_of batch_truncated_log topics) 9)
     = Some 2%N /\
   run (extract_model batch_truncated_log) = (Raise IndexError, [])) /\
  (length (tape_of batch_log topics) = 12%nat /\
   option_map utils.hex_to_dec (index (tape_of batch_log topics) 6) = Some 2%N /\
   option_map utils.hex_to_dec (index (tape_of batch_log topics) 9) = Some 2%N /\
   exists records,
     run (extract_model batch_log) = (Return (Some records), []) /\
     length records = 2%nat).
Proof.
  intros topics. split.
  - do 3 (split; [reflexivity|]).
    apply (X3_batch_values_bound utils.to_normalized_address utils.hex_to_dec
             batch_truncated_log TRANSFER_BATCH_ERC1155_EVENT_TOPIC
             operator_word from_word to_word
             "0x0000000000000000000000000000000000000000000000000000000000000002"
             "0x0000000000000000000000000000000000000000000000000000000000000002"
             eq_refl eq_refl eq_refl eq_refl eq_refl).
    vm_compute. split; reflexivity.
  - do 3 (split; [reflexivity|]).
    apply (X3_batch_values_bound utils.to_normalized_address utils.hex_to_dec
             batch_log TRANSFER_BATCH_ERC1155_EVENT_TOPIC
             operator_word from_word to_word
             "0x0000000000000000000000000000000000000000000000000000000000000002"
             "0x0000000000000000000000000000000000000000000000000000000000000002"
             eq_refl eq_refl eq_refl eq_refl eq_refl).
    right. vm_compute. discriminate.
Defined.

(** [batch_three_topics_log] has the signature and two more topics. *)
Lemma X4_batch_wrong_topic_count_witness :
  (exists t0 rest,
      ReceiptLog.topics batch_three_topics_log = Some (t0 :: rest) /\
      casefold t0 = TRANSFER_BATCH_ERC1155_EVENT_TOPIC /\
      length (t0 :: rest) <> 4%nat) /\
  run (extract_model batch_three_topics_log) =
    (Return None, [warn_erc1155 batch_three_topics_log]).
Proof.
  split.
  - eexists _, _. split; [reflexivity|]. split; [reflexivity|].
    vm_compute. discriminate.
  - apply (X4_batch_wrong_topic_count utils.to_normalized_address
             utils.hex_to_dec batch_three_topics_log _ _ eq_refl eq_refl).
    vm_compute. discriminate.
Defined.

(** The one warning of [batch_mismatch_log] comes with [None]. *)
Lemma X5_warning_discipline_witness :
  run (extract_model batch_mismatch_log) =
    (Return None, [warn_batch_counts batch_mismatch_log]) /\
  ([warn_batch_counts batch_mismatch_log] = [] \/
   (Return (@None (list EthTokenTransfer.t)) = Return None /\
    exists msg, [warn_batch_counts batch_mismatch_log] = [msg] /\
                identifies batch_mismatch_log msg)).
Proof.
  assert (H : run (extract_model batch_mismatch_log) =
              (Return None, [warn_batch_counts batch_mismatch_log]))
    by reflexivity.
  split; [exact H|].
  exact (X5_warning_discipline utils.to_normalized_address utils.hex_to_dec
           batch_mismatch_log _ _ H).
Defined.

(** The two records of [batch_log] come from a well-shaped batch. *)
Lemma X6_records_only_from_well_shaped_logs_witness :
  run (extract_model batch_log) = (Return (Some batch_records), []) /\
  exists t0 rest,
    ReceiptLog.topics batch_log = Some (t0 :: rest) /\
    length (t0 :: rest) = 4%nat.
Proof.
  assert (H : run (extract_model batch_log) = (Return (Some batch_records), []))
    by reflexivity.
  split; [exact H|].
  destruct (X6_records_only_from_well_shaped_logs utils.to_normalized_address
              utils.hex_to_dec batch_log batch_records [] H)
    as (t0 & rest & Ht & Hcases).
  exists t0, rest. split; [exact Ht|].
  injection Ht as <- <-. reflexivity.
Defined.

(** The second record of [batch_log] carries the identifiers of the
    log. *)
Lemma X7_records_copy_identifiers_witness :
  let r := transfer_model batch_log from_word to_word 3 (Some 7%N) in
  run (extract_model batch_log) = (Return (Some batch_records), []) /\
  In r batch_records /\
  EthTokenTransfer.transaction_hash r
    = Some (ReceiptLog.transaction_hash batch_log) /\
  EthTokenTransfer.log_index r = Some (ReceiptLog.log_index batch_log) /\
  EthTokenTransfer.block_number r = Some (ReceiptLog.block_number batch_log).
Proof.
  intros r.
  assert (H : run (extract_model batch_log) = (Return (Some batch_records), []))
    by reflexivity.
  assert (Hin : In r batch_records) by (right; left; reflexivity).
  split; [exact H|]. split; [exact Hin|].
  exact (X7_records_copy_identifiers utils.to_normalized_address
           utils.hex_to_dec batch_log batch_records [] r H Hin).
Defined.

(** The two records of [batch_log] agree on addresses and identifiers. *)
Lemma X8_records_share_addresses_witness :
  let r1 := transfer_model batch_log from_word to_word 1 (Some 8%N) in
  let r2 := transfer_model batch_log from_word to_word 3 (Some 7%N) in
  run (extract_model batch_log) = (Return (Some batch_records), []) /\
  In r1 batch_records /\ In r2 batch_records /\
  EthTokenTransfer.from_address r1 = EthTokenTransfer.from_address r2 /\
  EthTokenTransfer.to_address r1 = EthTokenTransfer.to_address r2.
Proof.
  intros r1 r2.
  assert (H : run (extract_model batch_log) = (Return (Some batch_records), []))
    by reflexivity.
  assert (Hin1 : In r1 batch_records) by (left; reflexivity).
  assert (Hin2 : In r2 batch_records) by (right; left; reflexivity).
  split; [exact H|]. split; [exact Hin1|]. split; [exact Hin2|].
  destruct (X8_records_share_addresses utils.to_normalized_address
              utils.hex_to_dec batch_log batch_records [] r1 r2 H Hin1 Hin2)
    as (Hf & Hto & _).
  split; assumption.
Defined.

(** The Transfer signature in upper-case and in lower-case hex digits. *)
Lemma X9_first_topic_spelling_witness :
  let upper :=
    "0xDDF252AD1BE2C89B69C2B068FC378DAA952BA7F163C4A11628F55A4DF523B3EF" in
  casefold upper = casefold TRANSFER_EVENT_TOPIC /\
  upper <> TRANSFER_EVENT_TOPIC /\
  run (extract_model (with_topics transfer_log
                        (Some [upper; from_word; to_word])))
  = run (extract_model (with_topics transfer_log
                          (Some [TRANSFER_EVENT_TOPIC; from_word; to_word]))).
Proof.
  intros upper. split; [reflexivity|]. split; [vm_compute; discriminate|].
  apply (X9_first_topic_spelling utils.to_normalized_address utils.hex_to_dec
           transfer_log upper TRANSFER_EVENT_TOPIC [from_word; to_word]).
  reflexivity.
Defined.

(** [from_word]: a prefix, 24 digits of padding and 40 of address. *)
Lemma X10_word_to_address_last_40_witness :
  let pre := "0x000000000000000000000000" in
  let body := "ABCDEF0123456789abcdef0123456789ABCDEF01" in
  String.length body = 40%nat /\
  pre ++ body = from_word /\
  word_to_address utils.to_normalized_address (Some (pre ++ body))
  = Some (utils.to_normalized_address ("0x" ++ body)).
Proof.
  intros pre body. split; [reflexivity|]. split; [reflexivity|].
  apply (X10_word_to_address_last_40 utils.to_normalized_address pre body).
  reflexivity.
Defined.

(** The data of [single_log]: two full words. *)
Lemma X11_split_to_words_of_joined_words_witness :
  let w_id := "0000000000000000000000000000000000000000000000000000000000000009" in
  let w_value := "0000000000000000000000000000000000000000000000000000000000000004" in
  String.length "0x" = 2%nat /\
  Forall (fun w => String.length w = 64%nat) [w_id] /\
  (1 <= String.length w_value <= 64)%nat /\
  ReceiptLog.data single_log = Some ("0x" ++ join ([w_id] ++ [w_value])) /\
  split_to_words (Some ("0x" ++ join ([w_id] ++ [w_value])))
  = map (fun word => "0x" ++ word) ([w_id] ++ [w_value]).
Proof.
  intros w_id w_value.
  assert (Hfull : Forall (fun w => String.length w = 64%nat) [w_id])
    by (constructor; [reflexivity | constructor]).
  assert (Htail : (1 <= String.length w_value <= 64)%nat)
    by (vm_compute; lia).
  split; [reflexivity|]. split; [exact Hfull|]. split; [exact Htail|].
  split; [reflexivity|].
  exact (X11_split_to_words_of_joined_words "0x" [w_id] w_value eq_refl
           Hfull Htail).
Defined.

(** [transfer_log]: the amount 2^200 + 17 is the one word of the data. *)
Lemma X12_transfer_amount_in_data_witness :
  let d := "0x0000000000000100000000000000000000000000000000000000000000000011" in
  ReceiptLog.data transfer_log = Some d /\
  (2 < String.length d <= 66)%nat /\
  utils.hex_to_dec ("0x" ++ drop 2 d) = (2 ^ 200 + 17)%N /\
  run (extract_model transfer_log) =
    (Return (Some [transfer_model transfer_log from_word to_word
                     (utils.hex_to_dec ("0x" ++ drop 2 d)) None]), []).
Proof.
  intros d.
  assert (Hlen : (2 < String.length d <= 66)%nat) by (vm_compute; lia).
  split; [reflexivity|]. split; [exact Hlen|]. split; [reflexivity|].
  apply (X12_transfer_amount_in_data utils.to_normalized_address
           utils.hex_to_dec transfer_log
           "0xDDF252AD1BE2C89B69C2B068FC378DAA952BA7F163C4A11628F55A4DF523B3EF"
           from_word to_word d eq_refl eq_refl eq_refl Hlen).
Defined.

(** [erc721_log]: token 77 is the fourth topic, the data is 0x. *)
Lemma X13_transfer_token_in_topics_witness :
  let w_token := "0x000000000000000000000000000000000000000000000000000000000000004d" in
  ReceiptLog.topics erc721_log
    = Some [TRANSFER_EVENT_TOPIC; from_word; to_word; w_token] /\
  (exists d, ReceiptLog.data erc721_log = Some d /\ (String.length d <= 2)%nat) /\
  utils.hex_to_dec w_token = 77%N /\
  run (extract_model erc721_log) =
    (Return (Some [transfer_model erc721_log from_word to_word
                     (utils.hex_to_dec w_token) None]), []).
Proof.
  intros w_token.
  assert (Hd : exists d, ReceiptLog.data erc721_log = Some d /\
                         (String.length d <= 2)%nat).
  { exists "0x". split; [reflexivity | vm_compute; lia]. }
  split; [reflexivity|]. split; [exact Hd|]. split; [reflexivity|].
  apply (X13_transfer_token_in_topics utils.to_normalized_address
           utils.hex_to_dec erc721_log TRANSFER_EVENT_TOPIC from_word to_word
           w_token eq_refl eq_refl).
  right. exact Hd.
Defined.

(** [single_log]: id 9 and value 4. *)
Lemma X14_transfer_single_layout_witness :
  let w_id := "0000000000000000000000000000000000000000000000000000000000000009" in
  let w_value := "0000000000000000000000000000000000000000000000000000000000000004" in
  ReceiptLog.data single_log = Some ("0x" ++ w_id ++ w_value) /\
  String.length w_id = 64%nat /\
  (1 <= String.length w_value <= 64)%nat /\
  run (extract_model single_log) =
    (Return (Some [transfer_model single_log from_word to_word
                     (utils.hex_to_dec ("0x" ++ w_value))
                     (Some (utils.hex_to_dec ("0x" ++ w_id)))]), []).
Proof.
  intros w_id w_value.
  assert (Hval : (1 <= String.length w_value <= 64)%nat) by (vm_compute; lia).
  split; [reflexivity|]. split; [reflexivity|]. split; [exact Hval|].
  exact (X14_transfer_single_layout utils.to_normalized_address
           utils.hex_to_dec single_log TRANSFER_ERC1155_EVENT_TOPIC
           operator_word from_word to_word "0x" w_id w_value
           eq_refl eq_refl eq_refl eq_refl eq_refl Hval).
Defined.

(** [batch_log]: ids 8 and 7, values 1 and 3. *)
Lemma X15_transfer_batch_layout_witness :
  let o1 := "0000000000000000000000000000000000000000000000000000000000000040" in
  let o2 := "00000000000000000000000000000000000000000000000000000000000000a0" in
  let n := "0000000000000000000000000000000000000000000000000000000000000002" in
  let ids := ["0000000000000000000000000000000000000000000000000000000000000008";
              "0000000000000000000000000000000000000000000000000000000000000007"] in
  let values := ["0000000000000000000000000000000000000000000000000000000000000001";
                 "0000000000000000000000000000000000000000000000000000000000000003"] in
  ReceiptLog.data batch_log =
    Some ("0x" ++ join ([o1; o2; n] ++ ids ++ [n] ++ values)) /\
  Forall (fun w => String.length w = 64%nat)
         ([o1; o2; n] ++ ids ++ [n] ++ values) /\
  utils.hex_to_dec ("0x" ++ n) = N.of_nat (length ids) /\
  length values = length ids /\
  run (extract_model batch_log) =
    (Return (Some (map (fun iv => transfer_model batch_log from_word to_word
                                   (utils.hex_to_dec ("0x" ++ snd iv))
                                   (Some (utils.hex_to_dec ("0x" ++ fst iv))))
                       (combine ids values))), []).
Proof.
  intros o1 o2 n ids values.
  assert (Hall : Forall (fun w => String.length w = 64%nat)
                        ([o1; o2; n] ++ ids ++ [n] ++ values))
    by (repeat constructor).
  split; [reflexivity|]. split; [exact Hall|]. split; [reflexivity|].
  split; [reflexivity|].
  exact (X15_transfer_batch_layout utils.to_normalized_address utils.hex_to_dec
           batch_log TRANSFER_BATCH_ERC1155_EVENT_TOPIC operator_word
           from_word to_word "0x" o1 o2 n ids n values
           eq_refl eq_refl eq_refl eq_refl Hall eq_refl eq_refl eq_refl).
Defined.

(** ** The address fields against the normalized word of the specification *)

(** C5 as stated fails: [transfer_short_from_log] is a Transfer of four
    words whose word 1 has 38 digits after its prefix; the specification
    normalizes that word as a whole, the record carries 0x and its last
    40 characters, the prefix among them. *)
Lemma C5_counterexample :
  exists t0 w1 w2 w3 r,
    ReceiptLog.topics transfer_short_from_log = Some [t0; w1; w2; w3] /\
    casefold t0 = TRANSFER_EVENT_TOPIC /\
    tape_of transfer_short_from_log [t0; w1; w2; w3] = [t0; w1; w2; w3] /\
    w1 = short_prefixed_word /\
    run (extract_model transfer_short_from_log) = (Return (Some [r]), []) /\
    EthTokenTransfer.from_address r
      = Some "0x0x11111111111111111111111111111111111111" /\
    normalized_word_spec utils.to_normalized_address w1
      = "0x11111111111111111111111111111111111111" /\
    EthTokenTransfer.from_address r
      <> Some (normalized_word_spec utils.to_normalized_address w1).
Proof.
  eexists _, _, _, _, _.
  split; [reflexivity|]. split; [reflexivity|]. split; [reflexivity|].
  split; [reflexivity|]. split; [reflexivity|]. split; [reflexivity|].
  split; [reflexivity|]. vm_compute. discriminate.
Qed.

(** C6 as stated fails: [single_short_from_log] is a TransferSingle of
    six words, four of them topics, whose word 2 has 38 digits after its
    prefix. *)
Lemma C6_counterexample :
  exists t0 w1 w2 w3 w4 w5 r,
    ReceiptLog.topics single_short_from_log = Some [t0; w1; w2; w3] /\
    casefold t0 = TRANSFER_ERC1155_EVENT_TOPIC /\
    tape_of single_short_from_log [t0; w1; w2; w3] = [t0; w1; w2; w3; w4; w5] /\
    w2 = short_prefixed_word /\
    run (extract_model single_short_from_log) = (Return (Some [r]), []) /\
    EthTokenTransfer.from_address r
      = Some "0x0x11111111111111111111111111111111111111" /\
    normalized_word_spec utils.to_normalized_address w2
      = "0x11111111111111111111111111111111111111" /\
    EthTokenTransfer.from_address r
      <> Some (normalized_word_spec utils.to_normalized_address w2).
Proof.
  eexists _, _, _, _, _, _, _.
  split; [reflexivity|]. split; [reflexivity|]. split; [reflexivity|].
  split; [reflexivity|]. split; [reflexivity|]. split; [reflexivity|].
  split; [reflexivity|]. vm_compute. discriminate.
Qed.

(** C1 as stated fails: [batch_short_from_log] is a well-formed batch of
    two pairs whose word 2 has 38 digits after its prefix; both records
    carry 0x and the last 40 characters of that word. *)
Lemma C1_counterexample :
  exists t0 w1 w2 w3 r0 r1,
    ReceiptLog.topics batch_short_from_log = Some [t0; w1; w2; w3] /\
    casefold t0 = TRANSFER_BATCH_ERC1155_EVENT_TOPIC /\
    option_map utils.hex_to_dec
      (index (tape_of batch_short_from_log [t0; w1; w2; w3]) 6) = Some 2%N /\
    option_map utils.hex_to_dec
      (index (tape_of batch_short_from_log [t0; w1; w2; w3]) (6 + 2 + 1))
      = Some 2%N /\
    length (tape_of batch_short_from_log [t0; w1; w2; w3]) = 12%nat /\
    w2 = short_prefixed_word /\
    run (extract_model batch_short_from_log) = (Return (Some [r0; r1]), []) /\
    EthTokenTransfer.from_address r0
      = Some "0x0x11111111111111111111111111111111111111" /\
    EthTokenTransfer.from_address r1 = EthTokenTransfer.from_address r0 /\
    normalized_word_spec utils.to_normalized_address w2
      = "0x11111111111111111111111111111111111111" /\
    EthTokenTransfer.from_address r0
      <> Some (normalized_word_spec utils.to_normalized_address w2).
Proof.
  eexists _, _, _, _, _, _.
  split; [reflexivity|]. split; [reflexivity|]. split; [reflexivity|].
  split; [reflexivity|]. split; [reflexivity|]. split; [reflexivity|].
  split; [reflexivity|]. split; [reflexivity|]. split; [reflexivity|].
  split; [reflexivity|]. vm_compute. discriminate.
Qed.
